(** * http_service/models.py: artifact cache and classification pipeline

    A shallow embedding of [load_model], [retrieve_model] and [classify_bug]
    from [http_service/models.py].  The Python code is sequential and talks
    to four stores: the local filesystem, the remote artifact index (HTTP),
    the Bugzilla record source and a Redis instance.  Each function becomes a
    computation in a state-and-exception monad over a [World] that holds
    those stores together with a log of the operations issued, in order.
    An exception keeps the world as it was at the point of the raise, as in
    Python: effects that happened before the raise stay visible. *)

From Stdlib Require Import ZArith Ascii.
From Corelib Require Import PrimFloat.
From stdpp Require Import base strings gmap list pretty.

Set Warnings "-inexact-float,-register-all".
Open Scope Z_scope.

(** ** Python values *)

(** The exceptions that the modelled code and its collaborators raise. *)
Inductive exn : Type :=
| KeyError (key : string)          (* dict lookup, [MODELS[model]], [r.headers["ETag"]] *)
| HTTPError (status : Z)           (* [r.raise_for_status()] *)
| ConnectionError                  (* [requests.head] could not complete *)
| URLError                         (* [urlretrieve]: the request was refused *)
| ContentTooShortError             (* [urlretrieve]: the transfer broke part-way *)
| IOError (path : string)          (* [open] of a missing file *)
| FileExistsError (path : string)  (* [os.makedirs] over a regular file *)
| LZMAError                        (* corrupt or truncated xz stream *)
| UnpicklingError                  (* [Model.load] on unreadable content *)
| ClassifyError                    (* the predictor itself raised *)
| BugzillaError                    (* the record source raised *)
| ValueError                       (* numpy / sklearn argument errors *)
| IndexError.                      (* [l[0]] on an empty list *)

Inductive Result (A : Type) : Type :=
| Ok (a : A)
| Raise (e : exn).
Arguments Ok {A} a.
Arguments Raise {A} e.

(** The data handed to [json.dumps]. *)
Inductive json : Type :=
| JBool (b : bool)
| JInt (n : Z)
| JFloat (f : float)
| JStr (s : string)
| JList (items : list json)
| JObj (fields : list (string * json)).

(** The text produced by [json.dumps].  The encoder is injective on the
    values above, so a text is represented by the value it encodes. *)
Inductive JsonText : Type :=
| json_dumps (data : json).

(** A bug report as returned by the record source: a JSON-like mapping. *)
Record Bug : Type := MkBug { bug_fields : list (string * string) }.

(** The three model classes of the registry. *)
Inductive ModelClass : Type :=
| DefectEnhancementTaskModel
| ComponentModel
| RegressionModel.

(** What the pipeline uses of a loaded model: [model.classify(bugs, True)],
    a two-dimensional array of class probabilities with one row per bug
    (or an exception), and the classes of its label encoder
    [model.clf._le]. *)
Record Predictor : Type := MkPredictor {
  classify_proba : list Bug → Result (list (list float));
  le_classes : list string
}.

(** ** The world *)

(** The answer to [requests.head(url, allow_redirects=True)]: the final
    status code and the value of the [ETag] header, if the header is there. *)
Record Response : Type := MkResponse {
  status_code : Z;
  header_ETag : option string
}.

(** One operation issued by the code, logged when it is attempted. *)
Inductive Event : Type :=
| EvSetToken (token : string)
| EvFetchBugs (bug_id : Z)
| EvMakedirs (path : string)
| EvHead (url : string)
| EvDownload (url dest : string)
| EvDecompress (src dest : string)
| EvWriteFile (path : string)
| EvLoadModel (cls : ModelClass) (path : string)
| EvClassify (n_bugs : nat)
| EvRedisSet (key : string) (value : JsonText)
| EvRedisExpire (key : string) (seconds : Z).

Record World : Type := MkWorld {
  (* local filesystem: path to content; a missing key is a missing file.
     Two different path strings are two different files: links and paths
     with dot segments are not modelled *)
  files : gmap string string;
  (* remote artifact index: what HEAD and GET answer per url; a missing
     key is a request that cannot complete *)
  remote_head : gmap string Response;
  remote_get : gmap string string;
  (* downloads that start and then break: for a url with no entry in
     [remote_get], the bytes received before the transfer breaks; a url in
     neither map is refused before any byte is received *)
  remote_broken : gmap string string;
  (* record source: the bugs returned for a token and an identifier *)
  bugzilla_token : option string;
  bugzilla_bugs : option string → Z → Result (list (Z * Bug));
  (* result store: key to value and remaining time to live *)
  redis : gmap string (JsonText * option Z);
  (* operations issued so far, oldest first *)
  trace : list Event
}.

Definition with_files (f : gmap string string) (w : World) : World :=
  MkWorld f (remote_head w) (remote_get w) (remote_broken w) (bugzilla_token w)
          (bugzilla_bugs w) (redis w) (trace w).

Definition with_token (t : option string) (w : World) : World :=
  MkWorld (files w) (remote_head w) (remote_get w) (remote_broken w) t
          (bugzilla_bugs w) (redis w) (trace w).

Definition with_redis (r : gmap string (JsonText * option Z)) (w : World) : World :=
  MkWorld (files w) (remote_head w) (remote_get w) (remote_broken w) (bugzilla_token w)
          (bugzilla_bugs w) r (trace w).

Definition with_trace (t : list Event) (w : World) : World :=
  MkWorld (files w) (remote_head w) (remote_get w) (remote_broken w) (bugzilla_token w)
          (bugzilla_bugs w) (redis w) t.

(** What the Python environment fixes once and for all: where the module
    is installed, the xz decoder and the deserialisers of the model
    classes. *)
Record Env : Type := MkEnv {
  (* [os.path.dirname(__file__)] *)
  module_dir : string;
  (* reading an xz stream to its end: the bytes obtained, and whether the
     stream was complete and valid ([false]: the reader raised after
     yielding those bytes) *)
  lzma_decode : string → string * bool;
  (* [cls.load] applied to the content of the model file *)
  model_load : ModelClass → string → option Predictor
}.

(** ** The monad *)

Definition M (A : Type) : Type := World → Result A * World.

Definition ret {A} (a : A) : M A := fun w => (Ok a, w).

Definition raise {A} (e : exn) : M A := fun w => (Raise e, w).

Definition bind {A B} (m : M A) (k : A → M B) : M B :=
  fun w =>
    match m w with
    | (Ok a, w') => k a w'
    | (Raise e, w') => (Raise e, w')
    end.

Notation "'let*' x ':=' m 'in' k" := (bind m (fun x => k))
  (at level 10, x name, m at level 100, k at level 200).
Notation "m ;;; k" := (bind m (fun _ => k))
  (at level 100, right associativity).

Definition lift {A} (r : Result A) : M A := fun w => (r, w).

Definition emit (e : Event) : M unit :=
  fun w => (Ok tt, with_trace (trace w ++ [e]) w).

(** [try: m except IOError: handler] *)
Definition try_except_IOError {A} (m : M A) (handler : M A) : M A :=
  fun w =>
    match m w with
    | (Raise (IOError _), w') => handler w'
    | r => r
    end.

(** ** Library operations *)

(** [os.path.join(a, b)] on POSIX: an absolute [b] discards [a]. *)
Definition ends_with_slash (a : string) : bool :=
  match String.rev a with
  | String c _ => bool_decide (c = "/"%char)
  | EmptyString => false
  end.

Definition os_path_join (a b : string) : string :=
  if String.prefix "/" b then b
  else if bool_decide (a = "") || ends_with_slash a then a +:+ b
  else a +:+ "/" +:+ b.

(** [os.makedirs(path, exist_ok=True)]: it only fails here when [path] is
    a regular file.  Directories are not tracked: [files] is keyed by full
    path. *)
Definition os_makedirs (path : string) : M unit :=
  emit (EvMakedirs path) ;;;
  fun w =>
    match files w !! path with
    | Some _ => (Raise (FileExistsError path), w)
    | None => (Ok tt, w)
    end.

(** [open(path, "r").read()] *)
Definition read_file (path : string) : M string :=
  fun w =>
    match files w !! path with
    | Some content => (Ok content, w)
    | None => (Raise (IOError path), w)
    end.

(** The content of [path] becomes [content]: [open(path, "w")] truncates
    or creates the file, then the writes land.  A file is read back as it
    was written: the only text file here holds an [ETag] header value,
    which has no line break for text mode to translate. *)
Definition put_file (path content : string) : M unit :=
  fun w => (Ok tt, with_files (<[path := content]> (files w)) w).

(** [with open(path, "w") as f: f.write(content)] *)
Definition write_file (path content : string) : M unit :=
  emit (EvWriteFile path) ;;;
  put_file path content.

(** [requests.head(url, allow_redirects=True)] *)
Definition requests_head (url : string) : M Response :=
  emit (EvHead url) ;;;
  fun w =>
    match remote_head w !! url with
    | Some r => (Ok r, w)
    | None => (Raise ConnectionError, w)
    end.

(** [r.raise_for_status()]: client and server errors raise. *)
Definition raise_for_status (r : Response) : M unit :=
  if bool_decide (400 ≤ status_code r < 600)
  then raise (HTTPError (status_code r))
  else ret tt.

(** [r.headers["ETag"]] *)
Definition headers_ETag (r : Response) : M string :=
  match header_ETag r with
  | Some e => ret e
  | None => raise (KeyError "ETag")
  end.

(** [urlretrieve(url, dest)]: the whole body is fetched into [dest].  When
    the request is refused, [urlopen] raises before [dest] is opened.  When
    the transfer breaks after the response has been opened, [dest] has
    already been opened for writing and holds the bytes received. *)
Definition urlretrieve (url dest : string) : M unit :=
  emit (EvDownload url dest) ;;;
  fun w =>
    match remote_get w !! url with
    | Some body => put_file dest body w
    | None =>
        match remote_broken w !! url with
        | Some received =>
            (Raise ContentTooShortError,
             with_files (<[dest := received]> (files w)) w)
        | None => (Raise URLError, w)
        end
    end.

(** Lines 63-66 of the source:
    [with lzma.open(src, "rb") as input_f:
       with open(dest, "wb") as output_f:
         shutil.copyfileobj(input_f, output_f)].
    The source is opened first, then the destination is opened for
    writing, which empties it; the decoded bytes are then copied across
    until the stream ends or the decoder raises.  What was copied before a
    raise stays in [dest]. *)
Definition lzma_copy (E : Env) (src dest : string) : M unit :=
  emit (EvDecompress src dest) ;;;
  let* compressed := read_file src in
  put_file dest "" ;;;
  let '(decoded, complete) := lzma_decode E compressed in
  put_file dest decoded ;;;
  if complete then ret tt else raise LZMAError.

(** [d[key]] on a dict given by its items *)
Fixpoint dict_getitem {V} (d : list (string * V)) (key : string) : Result V :=
  match d with
  | [] => Raise (KeyError key)
  | (k, v) :: d' => if bool_decide (k = key) then Ok v else dict_getitem d' key
  end.

(** [cls.load(path)]: reads the file and deserialises it. *)
Definition Model_load (E : Env) (cls : ModelClass) (path : string) : M Predictor :=
  emit (EvLoadModel cls path) ;;;
  let* content := read_file path in
  match model_load E cls content with
  | Some model => ret model
  | None => raise UnpicklingError
  end.

(** [model.classify(bugs, True)] *)
Definition Model_classify (model : Predictor) (bugs : list Bug) : M (list (list float)) :=
  emit (EvClassify (length bugs)) ;;;
  lift (classify_proba model bugs).

(** numpy's [argmax] over one row of doubles: the first maximum, a NaN
    counting as maximal; an empty row is a [ValueError]. *)
Fixpoint argmax_from (mp : float) (best i : nat) (row : list float) : nat :=
  match row with
  | [] => best
  | x :: row' =>
      if negb (PrimFloat.leb x mp)
      then (if PrimFloat.is_nan x then i else argmax_from x i (S i) row')
      else argmax_from mp best (S i) row'
  end.

Definition argmax (row : list float) : Result nat :=
  match row with
  | [] => Raise ValueError
  | x :: row' => Ok (if PrimFloat.is_nan x then 0%nat else argmax_from x 0 1 row')
  end.

Fixpoint mapR {A B} (f : A → Result B) (l : list A) : Result (list B) :=
  match l with
  | [] => Ok []
  | x :: l' =>
      match f x with
      | Raise e => Raise e
      | Ok y =>
          match mapR f l' with
          | Raise e => Raise e
          | Ok ys => Ok (y :: ys)
          end
      end
  end.

(** [probs.argmax(axis=-1)] on a two-dimensional array *)
Definition ndarray_argmax (probs : list (list float)) : Result (list nat) :=
  mapR argmax probs.

(** [LabelEncoder.inverse_transform(indexes)]: an index outside the
    classes is a [ValueError]. *)
Definition inverse_transform (classes : list string) (indexes : list nat)
  : Result (list string) :=
  mapR (fun y => match classes !! y with
                 | Some c => Ok c
                 | None => Raise ValueError
                 end) indexes.

(** [l[0]] *)
Definition getitem0 {A} (l : list A) : Result A :=
  match l with
  | x :: _ => Ok x
  | [] => Raise IndexError
  end.

(** [bugzilla.set_token(token)] *)
Definition bugzilla_set_token (token : string) : M unit :=
  emit (EvSetToken token) ;;;
  fun w => (Ok tt, with_token (Some token) w).

(** [bugzilla._download(bug_id)]: the mapping from identifier to bug,
    given by its items. *)
Definition bugzilla_download (bug_id : Z) : M (list (Z * Bug)) :=
  emit (EvFetchBugs bug_id) ;;;
  fun w => (bugzilla_bugs w (bugzilla_token w) bug_id, w).

(** [redis.set(key, value)]: the key holds [value] and has no expiry. *)
Definition redis_set (key : string) (value : JsonText) : M unit :=
  emit (EvRedisSet key value) ;;;
  fun w => (Ok tt, with_redis (<[key := (value, None)]> (redis w)) w).

(** [redis.expire(key, seconds)]: nothing on a missing key; the key is
    deleted when [seconds] is not positive. *)
Definition redis_expire (key : string) (seconds : Z) : M unit :=
  emit (EvRedisExpire key seconds) ;;;
  fun w =>
    match redis w !! key with
    | None => (Ok tt, w)
    | Some (value, _) =>
        if bool_decide (seconds ≤ 0)
        then (Ok tt, with_redis (delete key (redis w)) w)
        else (Ok tt, with_redis (<[key := (value, Some seconds)]> (redis w)) w)
    end.

(** ** The module *)

Definition MODELS : list (string * ModelClass) :=
  [ ("defectenhancementtask", DefectEnhancementTaskModel);
    ("component", ComponentModel);
    ("regression", RegressionModel) ].

Definition MODELS_NAMES : list string := MODELS.*1.

Definition MODELS_DIR (E : Env) : string := os_path_join (module_dir E) "models".

Definition BASE_URL : string :=
  "https://index.taskcluster.net/v1/task/project.releng.services.project.testing.bugbug_train.latest/artifacts/public".

(** The paths and the url that the code derives from a model name. *)
Definition model_file_path (E : Env) (name : string) : string :=
  os_path_join (MODELS_DIR E) (name +:+ "model").

Definition model_url (name : string) : string :=
  BASE_URL +:+ "/" +:+ (name +:+ "model") +:+ ".xz".

Definition load_model (E : Env) (model : string) : M Predictor :=
  let model_file_path := os_path_join (MODELS_DIR E) (model +:+ "model") in
  let* cls := lift (dict_getitem MODELS model) in
  Model_load E cls model_file_path.

Definition retrieve_model (E : Env) (name : string) : M string :=
  os_makedirs (MODELS_DIR E) ;;;
  let file_name := name +:+ "model" in
  let file_path := os_path_join (MODELS_DIR E) file_name in
  let model_url := BASE_URL +:+ "/" +:+ file_name +:+ ".xz" in
  let* r := requests_head model_url in
  raise_for_status r ;;;
  let* new_etag := headers_ETag r in
  let* old_etag :=
    try_except_IOError
      (let* content := read_file (file_path +:+ ".etag") in ret (Some content))
      (ret None) in
  (if bool_decide (old_etag ≠ Some new_etag) then
     urlretrieve model_url (file_path +:+ ".xz") ;;;
     lzma_copy E (file_path +:+ ".xz") file_path ;;;
     write_file (file_path +:+ ".etag") new_etag
   else ret tt) ;;;
  ret file_path.

Definition redis_key_of (model_name : string) (bug_id : Z) : string :=
  "result_" +:+ model_name +:+ "_" +:+ pretty bug_id.

Definition classify_bug (E : Env) (model_name : string) (bug_id : Z)
    (bugzilla_token : string) (expiration : Z) : M string :=
  bugzilla_set_token bugzilla_token ;;;
  let* bugs := bugzilla_download bug_id in
  let redis_key := "result_" +:+ model_name +:+ "_" +:+ pretty bug_id in
  match bugs with
  | [] =>
      let encoded_data := json_dumps (JObj [("available", JBool false)]) in
      redis_set redis_key encoded_data ;;;
      redis_expire redis_key expiration ;;;
      ret "OK"
  | _ :: _ =>
      let* model := load_model E model_name in
      let* probs := Model_classify model (bugs.*2) in
      let* indexes := lift (ndarray_argmax probs) in
      let* suggestions := lift (inverse_transform (le_classes model) indexes) in
      let* probs0 := lift (getitem0 probs) in
      let* indexes0 := lift (getitem0 indexes) in
      let* suggestions0 := lift (getitem0 suggestions) in
      let data := JObj [ ("probs", JList (JFloat <$> probs0));
                         ("indexes", JInt (Z.of_nat indexes0));
                         ("suggestions", JStr suggestions0) ] in
      let encoded_data := json_dumps data in
      redis_set redis_key encoded_data ;;;
      redis_expire redis_key expiration ;;;
      ret "OK"
  end.

(** The default of the last parameter: [expiration=500]. *)
Definition classify_bug_default (E : Env) (model_name : string) (bug_id : Z)
    (bugzilla_token : string) : M string :=
  classify_bug E model_name bug_id bugzilla_token 500.

(** ** Paths *)

(** The paths that [retrieve_model] touches are told apart by their last
    character: the directory ends in [s], the artifact in [l], the staging
    file in [z] and the fingerprint record in [g]. *)
Fixpoint last_char (s : string) : option ascii :=
  match s with
  | EmptyString => None
  | String c EmptyString => Some c
  | String _ s' => last_char s'
  end.

Definition etag_path (E : Env) (name : string) : string :=
  model_file_path E name +:+ ".etag".

Definition xz_path (E : Env) (name : string) : string :=
  model_file_path E name +:+ ".xz".

(** ** Vocabulary of the properties *)

(** The operations of the conditional download. *)
Definition resolve_event (e : Event) : bool :=
  match e with
  | EvMakedirs _ | EvHead _ | EvDownload _ _ | EvDecompress _ _
  | EvWriteFile _ => true
  | _ => false
  end.

(** The writes to the result store. *)
Definition store_event (e : Event) : bool :=
  match e with
  | EvRedisSet _ _ | EvRedisExpire _ _ => true
  | _ => false
  end.

(** The published value when there is nothing to classify. *)
Definition unavailable : JsonText :=
  json_dumps (JObj [("available", JBool false)]).

(** The published value as the code builds it from the first row of the
    probabilities, the first index and the first label. *)
Definition result_data (probs0 : list float) (index0 : nat) (suggestion0 : string)
  : json :=
  JObj [ ("probs", JList (JFloat <$> probs0));
         ("indexes", JInt (Z.of_nat index0));
         ("suggestions", JStr suggestion0) ].

(** The shape that the specification gives to the published value: three
    flat sequences of equal length. *)
Definition flat_sequences (data : json) : Prop :=
  ∃ (probs : list float) (indexes : list Z) (suggestions : list string),
    data = JObj [ ("probs", JList (JFloat <$> probs));
                  ("indexes", JList (JInt <$> indexes));
                  ("suggestions", JList (JStr <$> suggestions)) ]
    ∧ length probs = length indexes
    ∧ length indexes = length suggestions.

(** A probability array as scikit-learn returns it for [classes]: every
    row has one column per class, and there is at least one class. *)
Definition well_shaped (classes : list string) (probs : list (list float)) : Prop :=
  Forall (fun row => row ≠ [] ∧ length row = length classes) probs.

(** The conditions under which the branch with records runs to its end:
    the name is registered, the artifact is on disk and deserialises to
    [model], and the predictor answers [probs], one row per bug, well
    shaped for the classes of [model]. *)
Definition classifiable (E : Env) (w : World) (model_name : string)
    (bugs : list Bug) (model : Predictor) (probs : list (list float)) : Prop :=
  ∃ cls content,
    dict_getitem MODELS model_name = Ok cls
    ∧ files w !! model_file_path E model_name = Some content
    ∧ model_load E cls content = Some model
    ∧ classify_proba model bugs = Ok probs
    ∧ length probs = length bugs
    ∧ well_shaped (le_classes model) probs.

(** Every call of [retrieve_model] is of one of four kinds: it raises
    before anything is written, it finds the fingerprint unchanged, it
    finds it changed and the download succeeds, or it finds it changed and
    the transfer breaks part-way. *)
Inductive resolve_case (E : Env) (name : string) (w : World) : Prop :=
| Resolve_failed_early e w' :
    retrieve_model E name w = (Raise e, w') →
    files w' = files w →
    resolve_case E name w
| Resolve_unchanged r new_etag :
    files w !! MODELS_DIR E = None →
    remote_head w !! model_url name = Some r →
    ¬ (400 ≤ status_code r < 600) →
    header_ETag r = Some new_etag →
    files w !! etag_path E name = Some new_etag →
    resolve_case E name w
| Resolve_changed r new_etag body :
    files w !! MODELS_DIR E = None →
    remote_head w !! model_url name = Some r →
    ¬ (400 ≤ status_code r < 600) →
    header_ETag r = Some new_etag →
    files w !! etag_path E name ≠ Some new_etag →
    remote_get w !! model_url name = Some body →
    resolve_case E name w
| Resolve_transfer_broken r new_etag received :
    files w !! MODELS_DIR E = None →
    remote_head w !! model_url name = Some r →
    ¬ (400 ≤ status_code r < 600) →
    header_ETag r = Some new_etag →
    files w !! etag_path E name ≠ Some new_etag →
    remote_get w !! model_url name = None →
    remote_broken w !! model_url name = Some received →
    resolve_case E name w.


(** ** Concrete instances, for evaluating the definitions *)

Module Demo.

(** A stand-in for the xz decoder: [xz:payload] is a complete stream for
    [payload]; [xz~payload] is a stream cut short after [payload], so the
    reader yields [payload] and then raises; anything else is rejected
    at once. *)
Definition xz_decode (s : string) : string * bool :=
  match s with
  | String "x" (String "z" (String ":" payload)) => (payload, true)
  | String "x" (String "z" (String "~" payload)) => (payload, false)
  | _ => ("", false)
  end.

(** A predictor over three components that answers the same
    probabilities for every bug. *)
Definition predictor : Predictor :=
  {| classify_proba := fun bugs => Ok ((fun _ => [0.1; 0.7; 0.2]%float) <$> bugs);
     le_classes := ["Core::DOM"; "Firefox::General"; "Toolkit::Themes"] |}.

(** Model files hold the text [pickle] in this instance. *)
Definition unpickle (cls : ModelClass) (content : string) : option Predictor :=
  if bool_decide (content = "pickle") then Some predictor else None.

Definition env : Env :=
  {| module_dir := "/srv/http_service";
     lzma_decode := xz_decode;
     model_load := unpickle |}.

Definition bug : Bug := MkBug [("summary", "Crash on startup")].

(** Nothing on disk, nothing in the store, an empty remote index and a
    record source that knows no bug. *)
Definition empty_world : World :=
  {| files := ∅; remote_head := ∅; remote_get := ∅; remote_broken := ∅;
     bugzilla_token := None;
     bugzilla_bugs := fun _ _ => Ok [];
     redis := ∅;
     trace := [] |}.

(** The record source returns one bug for identifier 67. *)
Definition world_with_bug : World :=
  {| files := ∅; remote_head := ∅; remote_get := ∅; remote_broken := ∅;
     bugzilla_token := None;
     bugzilla_bugs := fun _ id => if bool_decide (id = 67) then Ok [(67, bug)] else Ok [];
     redis := ∅;
     trace := [] |}.

(** As [world_with_bug], with the component model on disk. *)
Definition world_ready : World :=
  with_files {[ "/srv/http_service/models/componentmodel" := "pickle" ]} world_with_bug.

(** The remote index serves [name], with fingerprint [etag] and content
    [body]; the local disk is [fs]. *)
Definition world_remote (name etag body : string) (fs : gmap string string) : World :=
  {| files := fs;
     remote_head := {[ model_url name := MkResponse 200 (Some etag) ]};
     remote_get := {[ model_url name := body ]};
     remote_broken := ∅;
     bugzilla_token := None;
     bugzilla_bugs := fun _ _ => Ok [];
     redis := ∅;
     trace := [] |}.

(** A disk that holds version [v1] of the component model. *)
Definition disk_v1 : gmap string string :=
  {[ "/srv/http_service/models/componentmodel" := "pickle";
     "/srv/http_service/models/componentmodel.etag" := "v1" ]}.

(** The remote index serves an artifact under a name that is not in the
    registry; the local disk is empty. *)
Definition world_unregistered : World :=
  world_remote "nosuch" "v1" "xz:data" ∅.

(** The remote index has moved on to version [v2]. *)
Definition world_v2 : World :=
  world_remote "component" "v2" "xz:pickle2" disk_v1.

(** As [world_v2], but the archive served is cut short. *)
Definition world_v2_cut : World :=
  world_remote "component" "v2" "xz~pic" disk_v1.

(** [world_v2] after one call of [retrieve_model]. *)
Definition world_v2_resolved : World :=
  (retrieve_model env "component" world_v2).2.

End Demo.

(** ** Facts about paths *)

(** Two paths with different last characters are different. *)
Lemma app_not_empty (a b : string) : b ≠ "" → a +:+ b ≠ "".
Proof. destruct a; [done | discriminate]. Qed.

Lemma last_char_app (a b : string) :
  b ≠ "" → last_char (a +:+ b) = last_char b.
Proof.
  intros Hb. induction a as [| c a IH]; [done |].
  change (String c a +:+ b) with (String c (a +:+ b)).
  pose proof (app_not_empty a b Hb) as Hne.
  simpl. destruct (a +:+ b) eqn:Heq; [done | exact IH].
Qed.

Lemma last_char_join (a b : string) :
  b ≠ "" → last_char (os_path_join a b) = last_char b.
Proof.
  intros Hb. unfold os_path_join.
  destruct (String.prefix "/" b); [done |].
  destruct (bool_decide (a = "") || ends_with_slash a).
  - by apply last_char_app.
  - rewrite last_char_app; [| discriminate].
    by apply (last_char_app "/").
Qed.

Lemma last_char_MODELS_DIR E : last_char (MODELS_DIR E) = Some "s"%char.
Proof. unfold MODELS_DIR. by rewrite last_char_join. Qed.

Lemma last_char_model_file_path E name :
  last_char (model_file_path E name) = Some "l"%char.
Proof.
  unfold model_file_path.
  rewrite last_char_join; [| by apply app_not_empty].
  by rewrite last_char_app.
Qed.

Lemma last_char_xz_path E name : last_char (xz_path E name) = Some "z"%char.
Proof. unfold xz_path. by rewrite last_char_app. Qed.

Lemma last_char_etag_path E name : last_char (etag_path E name) = Some "g"%char.
Proof. unfold etag_path. by rewrite last_char_app. Qed.

Ltac by_last_char :=
  let H := fresh in
  intros H; apply (f_equal last_char) in H;
  rewrite ?last_char_MODELS_DIR, ?last_char_model_file_path,
          ?last_char_xz_path, ?last_char_etag_path in H;
  discriminate H.

Lemma xz_ne_file E name : xz_path E name ≠ model_file_path E name.
Proof. by_last_char. Qed.

Lemma etag_ne_file E name : etag_path E name ≠ model_file_path E name.
Proof. by_last_char. Qed.

Lemma etag_ne_xz E name : etag_path E name ≠ xz_path E name.
Proof. by_last_char. Qed.

Lemma dir_ne_file E name : MODELS_DIR E ≠ model_file_path E name.
Proof. by_last_char. Qed.

Lemma dir_ne_xz E name : MODELS_DIR E ≠ xz_path E name.
Proof. by_last_char. Qed.

Lemma dir_ne_etag E name : MODELS_DIR E ≠ etag_path E name.
Proof. by_last_char. Qed.

(** ** Running the monad, one step at a time *)

Lemma run_eta {A} (m : M A) w r : (m w).1 = r → m w = (r, (m w).2).
Proof. intros <-. by destruct (m w). Qed.

Lemma bind_ok {A B} (m : M A) (k : A → M B) w a w' :
  m w = (Ok a, w') → bind m k w = k a w'.
Proof. intros H. unfold bind. by rewrite H. Qed.

Lemma bind_emit {B} (e : Event) (k : unit → M B) w :
  bind (emit e) k w = k tt (with_trace (trace w ++ [e]) w).
Proof. reflexivity. Qed.

Ltac world_simpl :=
  cbn [files remote_head remote_get remote_broken bugzilla_token bugzilla_bugs redis trace
       with_files with_token with_redis with_trace].

Ltac world_simpl_in H :=
  cbn [files remote_head remote_get remote_broken bugzilla_token bugzilla_bugs redis trace
       with_files with_token with_redis with_trace] in H.

Lemma os_makedirs_ok path w :
  files w !! path = None →
  os_makedirs path w = (Ok tt, with_trace (trace w ++ [EvMakedirs path]) w).
Proof. intros H. unfold os_makedirs. rewrite bind_emit. world_simpl. by rewrite H. Qed.

Lemma requests_head_ok url r w :
  remote_head w !! url = Some r →
  requests_head url w = (Ok r, with_trace (trace w ++ [EvHead url]) w).
Proof. intros H. unfold requests_head. rewrite bind_emit. world_simpl. by rewrite H. Qed.

Lemma raise_for_status_ok r w :
  ¬ (400 ≤ status_code r < 600) → raise_for_status r w = (Ok tt, w).
Proof. intros H. unfold raise_for_status. by rewrite bool_decide_eq_false_2. Qed.

Lemma headers_ETag_ok r e w :
  header_ETag r = Some e → headers_ETag r w = (Ok e, w).
Proof. intros H. unfold headers_ETag. by rewrite H. Qed.

(** The [try] block around the read of the fingerprint record: the
    content of the record, or [None] when there is no record. *)
Lemma read_etag_run path w :
  try_except_IOError
    (let* content := read_file path in ret (Some content)) (ret None) w
  = (Ok (files w !! path), w).
Proof.
  unfold try_except_IOError, bind, read_file, ret.
  by destruct (files w !! path).
Qed.

Lemma urlretrieve_ok url dest body w :
  remote_get w !! url = Some body →
  urlretrieve url dest w =
    (Ok tt, with_files (<[dest := body]> (files w))
              (with_trace (trace w ++ [EvDownload url dest]) w)).
Proof. intros H. unfold urlretrieve. rewrite bind_emit. world_simpl. by rewrite H. Qed.

Lemma lzma_copy_run E src dest compressed w :
  files w !! src = Some compressed →
  lzma_copy E src dest w =
    (if (lzma_decode E compressed).2 then Ok tt else Raise LZMAError,
     with_files (<[dest := (lzma_decode E compressed).1]> (files w))
       (with_trace (trace w ++ [EvDecompress src dest]) w)).
Proof.
  intros H. unfold lzma_copy. rewrite bind_emit.
  unfold bind, read_file, put_file. world_simpl. rewrite H.
  destruct (lzma_decode E compressed) as [decoded [|]]; world_simpl;
    by rewrite insert_insert_eq.
Qed.

Lemma write_file_run path content w :
  write_file path content w =
    (Ok tt, with_files (<[path := content]> (files w))
              (with_trace (trace w ++ [EvWriteFile path]) w)).
Proof. reflexivity. Qed.

(** The steps of [retrieve_model] up to the comparison of the
    fingerprints, as far as the hypotheses at hand let them succeed. *)
Ltac resolve_start E name :=
  unfold retrieve_model; cbv zeta;
  fold (model_file_path E name); fold (model_url name);
  fold (etag_path E name); fold (xz_path E name).

Ltac resolve_step :=
  first
    [ erewrite bind_ok by (by apply os_makedirs_ok)
    | erewrite bind_ok by (by apply requests_head_ok)
    | erewrite bind_ok by (by apply raise_for_status_ok)
    | erewrite bind_ok by (by apply headers_ETag_ok)
    | erewrite bind_ok by apply read_etag_run ].

Lemma retrieve_model_unchanged E name w r new_etag :
  files w !! MODELS_DIR E = None →
  remote_head w !! model_url name = Some r →
  ¬ (400 ≤ status_code r < 600) →
  header_ETag r = Some new_etag →
  files w !! etag_path E name = Some new_etag →
  retrieve_model E name w =
    (Ok (model_file_path E name),
     with_trace (trace w ++ [EvMakedirs (MODELS_DIR E); EvHead (model_url name)]) w).
Proof.
  intros Hdir Hhead Hst Het Hold.
  resolve_start E name. repeat resolve_step.
  world_simpl. rewrite Hold.
  rewrite bool_decide_eq_false_2 by (by intros []).
  unfold bind, ret. f_equal. destruct w; simpl. by rewrite <- app_assoc.
Qed.


Lemma world_eq (w1 w2 : World) :
  files w1 = files w2 → remote_head w1 = remote_head w2 →
  remote_get w1 = remote_get w2 → remote_broken w1 = remote_broken w2 →
  bugzilla_token w1 = bugzilla_token w2 →
  bugzilla_bugs w1 = bugzilla_bugs w2 → redis w1 = redis w2 →
  trace w1 = trace w2 → w1 = w2.
Proof. destruct w1, w2; simpl; by intros -> -> -> -> -> -> -> ->. Qed.

Ltac world_eq :=
  apply world_eq; world_simpl; rewrite <- ?app_assoc; try reflexivity.

Lemma retrieve_model_changed E name w r new_etag body decoded complete :
  files w !! MODELS_DIR E = None →
  remote_head w !! model_url name = Some r →
  ¬ (400 ≤ status_code r < 600) →
  header_ETag r = Some new_etag →
  files w !! etag_path E name ≠ Some new_etag →
  remote_get w !! model_url name = Some body →
  lzma_decode E body = (decoded, complete) →
  let fs := <[model_file_path E name := decoded]>
              (<[xz_path E name := body]> (files w)) in
  let evs := [EvMakedirs (MODELS_DIR E); EvHead (model_url name);
              EvDownload (model_url name) (xz_path E name);
              EvDecompress (xz_path E name) (model_file_path E name)] in
  retrieve_model E name w =
    if complete
    then (Ok (model_file_path E name),
          with_files (<[etag_path E name := new_etag]> fs)
            (with_trace (trace w ++ evs ++ [EvWriteFile (etag_path E name)]) w))
    else (Raise LZMAError, with_files fs (with_trace (trace w ++ evs) w)).
Proof.
  intros Hdir Hhead Hst Het Hold Hget Hdec fs evs.
  resolve_start E name. repeat resolve_step.
  world_simpl. rewrite bool_decide_eq_true_2 by done.
  unfold bind at 1.
  erewrite bind_ok by (by apply urlretrieve_ok).
  unfold bind at 1.
  erewrite lzma_copy_run by (world_simpl; apply lookup_insert_eq).
  rewrite Hdec. cbn [fst snd]. world_simpl.
  destruct complete.
  - rewrite write_file_run. unfold ret. f_equal. world_eq.
  - f_equal. world_eq.
Qed.

Lemma retrieve_model_broken E name w r new_etag received :
  files w !! MODELS_DIR E = None →
  remote_head w !! model_url name = Some r →
  ¬ (400 ≤ status_code r < 600) →
  header_ETag r = Some new_etag →
  files w !! etag_path E name ≠ Some new_etag →
  remote_get w !! model_url name = None →
  remote_broken w !! model_url name = Some received →
  retrieve_model E name w =
    (Raise ContentTooShortError,
     with_files (<[xz_path E name := received]> (files w))
       (with_trace
          (trace w ++ [EvMakedirs (MODELS_DIR E); EvHead (model_url name);
                       EvDownload (model_url name) (xz_path E name)]) w)).
Proof.
  intros Hdir Hhead Hst Het Hold Hget Hbroken.
  resolve_start E name. repeat resolve_step.
  world_simpl. rewrite bool_decide_eq_true_2 by done.
  unfold bind at 1, bind at 1, urlretrieve. rewrite bind_emit. world_simpl.
  rewrite Hget, Hbroken. f_equal. world_eq.
Qed.

Lemma retrieve_model_cases E name w : resolve_case E name w.
Proof.
  destruct (files w !! MODELS_DIR E) as [c|] eqn:Hdir.
  { eapply Resolve_failed_early with (w' := with_trace _ w); [| done].
    unfold retrieve_model, bind at 1, os_makedirs. rewrite bind_emit.
    world_simpl. by rewrite Hdir. }
  destruct (remote_head w !! model_url name) as [r|] eqn:Hhead; cycle 1.
  { eapply Resolve_failed_early with (w' := with_trace _ w); [| done].
    resolve_start E name. repeat resolve_step.
    unfold bind at 1, requests_head. rewrite bind_emit. world_simpl.
    by rewrite Hhead. }
  destruct (decide (400 ≤ status_code r < 600)) as [Hst|Hst].
  { eapply Resolve_failed_early with (w' := with_trace _ w); [| done].
    resolve_start E name. repeat resolve_step.
    unfold bind at 1, raise_for_status.
    by rewrite bool_decide_eq_true_2. }
  destruct (header_ETag r) as [new_etag|] eqn:Het; cycle 1.
  { eapply Resolve_failed_early with (w' := with_trace _ w); [| done].
    resolve_start E name. repeat resolve_step.
    unfold bind at 1, headers_ETag. by rewrite Het. }
  destruct (decide (files w !! etag_path E name = Some new_etag)) as [Hold|Hold].
  { by eapply Resolve_unchanged. }
  destruct (remote_get w !! model_url name) as [body|] eqn:Hget.
  { by eapply Resolve_changed. }
  destruct (remote_broken w !! model_url name) as [received|] eqn:Hbroken.
  { by eapply Resolve_transfer_broken. }
  eapply Resolve_failed_early with (w' := with_trace _ w); [| done].
  resolve_start E name. repeat resolve_step.
  world_simpl. rewrite bool_decide_eq_true_2 by done.
  unfold bind at 1, bind at 1, urlretrieve. rewrite bind_emit. world_simpl.
  by rewrite Hget, Hbroken.
Qed.

(** ** Running [classify_bug] *)

Lemma bind_lift {A B} (r : Result A) (k : A → M B) w :
  bind (lift r) k w = match r with Ok a => k a w | Raise e => (Raise e, w) end.
Proof. by destruct r. Qed.

Lemma classify_bug_fetch E model_name bug_id tok ttl w :
  classify_bug E model_name bug_id tok ttl w =
  let w1 := with_token (Some tok)
              (with_trace (trace w ++ [EvSetToken tok; EvFetchBugs bug_id]) w) in
  let redis_key := redis_key_of model_name bug_id in
  match bugzilla_bugs w (Some tok) bug_id with
  | Raise e => (Raise e, w1)
  | Ok [] =>
      (redis_set redis_key (json_dumps (JObj [("available", JBool false)])) ;;;
       redis_expire redis_key ttl ;;; ret "OK") w1
  | Ok (b :: bugs) =>
      (let* model := load_model E model_name in
       let* probs := Model_classify model ((b :: bugs).*2) in
       let* indexes := lift (ndarray_argmax probs) in
       let* suggestions := lift (inverse_transform (le_classes model) indexes) in
       let* probs0 := lift (getitem0 probs) in
       let* indexes0 := lift (getitem0 indexes) in
       let* suggestions0 := lift (getitem0 suggestions) in
       redis_set redis_key
         (json_dumps (JObj [ ("probs", JList (JFloat <$> probs0));
                             ("indexes", JInt (Z.of_nat indexes0));
                             ("suggestions", JStr suggestions0) ])) ;;;
       redis_expire redis_key ttl ;;; ret "OK") w1
  end.
Proof.
  destruct w as [fs rh rg rb t bz rd tr].
  cbv beta iota zeta delta
    [classify_bug bugzilla_set_token bugzilla_download bind emit
     with_trace with_token trace bugzilla_bugs bugzilla_token redis_key_of
     files remote_head remote_get remote_broken redis].
  rewrite <- app_assoc.
  by destruct (bz (Some tok) bug_id) as [[|b bugs]|e].
Qed.

Lemma publish_run key value ttl w :
  (redis_set key value ;;; redis_expire key ttl ;;; ret "OK") w =
    (Ok "OK",
     with_redis (if bool_decide (ttl ≤ 0) then delete key (redis w)
                 else <[key := (value, Some ttl)]> (redis w))
       (with_trace (trace w ++ [EvRedisSet key value; EvRedisExpire key ttl]) w)).
Proof.
  destruct w as [fs rh rg rb t bz rd tr].
  cbv beta iota zeta delta
    [redis_set redis_expire bind emit ret with_trace with_redis trace redis
     bugzilla_bugs bugzilla_token files remote_head remote_get remote_broken].
  rewrite lookup_insert_eq, <- app_assoc.
  case_bool_decide.
  - by rewrite delete_insert_eq.
  - by rewrite insert_insert_eq.
Qed.

Lemma load_model_run E model w :
  load_model E model w =
    match dict_getitem MODELS model with
    | Raise e => (Raise e, w)
    | Ok cls =>
        (match files w !! model_file_path E model with
         | None => Raise (IOError (model_file_path E model))
         | Some content =>
             match model_load E cls content with
             | Some m => Ok m
             | None => Raise UnpicklingError
             end
         end,
         with_trace (trace w ++ [EvLoadModel cls (model_file_path E model)]) w)
    end.
Proof.
  unfold load_model. cbv zeta. rewrite bind_lift.
  destruct (dict_getitem MODELS model) as [cls|e]; [| done].
  unfold Model_load. rewrite bind_emit. fold (model_file_path E model).
  unfold bind, read_file. world_simpl.
  destruct (files w !! model_file_path E model) as [content|]; [| done].
  by destruct (model_load E cls content).
Qed.

Lemma Model_classify_run model bugs w :
  Model_classify model bugs w =
    (classify_proba model bugs, with_trace (trace w ++ [EvClassify (length bugs)]) w).
Proof. reflexivity. Qed.

(** ** The artifact cache: [retrieve_model] *)

(** A call that returns, returns the artifact path, and leaves a
    fingerprint record that equals the remote fingerprint it saw. *)
Lemma retrieve_model_returns E name w p w1 :
  retrieve_model E name w = (Ok p, w1) →
  p = model_file_path E name
  ∧ files w1 !! MODELS_DIR E = None
  ∧ ∃ r new_etag,
      remote_head w !! model_url name = Some r
      ∧ ¬ (400 ≤ status_code r < 600)
      ∧ header_ETag r = Some new_etag
      ∧ files w1 !! etag_path E name = Some new_etag.
Proof.
  intros Hrun.
  destruct (retrieve_model_cases E name w)
    as [e w' Hfail _ | r new_etag Hdir Hhead Hst Het Hold
        | r new_etag body Hdir Hhead Hst Het Hold Hget
        | r new_etag received Hdir Hhead Hst Het Hold Hget Hbroken].
  4: { rewrite (retrieve_model_broken E name w r new_etag received) in Hrun
         by done. discriminate. }
  - congruence.
  - rewrite (retrieve_model_unchanged E name w r new_etag) in Hrun by done.
    injection Hrun as <- <-. world_simpl. eauto 10.
  - destruct (lzma_decode E body) as [decoded complete] eqn:Hdec.
    rewrite (retrieve_model_changed E name w r new_etag body decoded complete)
      in Hrun by done.
    destruct complete; [| discriminate].
    injection Hrun as <- <-. world_simpl.
    split; [done |]. split.
    + rewrite !lookup_insert_ne; first done; by_last_char.
    + exists r, new_etag. by rewrite lookup_insert_eq.
Qed.

(** C5. Two consecutive calls of [retrieve_model] for the same name, with
    the same answer to the fingerprint query and the local files as the
    first call left them: the second call returns the same path as the
    first, issues the directory creation and the HEAD request and nothing
    else (no download, no decompression, no write), and leaves the files
    as they are. *)
Theorem retrieve_model_twice_no_download E name w p w2 :
  (retrieve_model E name w).1 = Ok p →
  files w2 = files (retrieve_model E name w).2 →
  remote_head w2 !! model_url name = remote_head w !! model_url name →
  (retrieve_model E name w2).1 = Ok p
  ∧ files (retrieve_model E name w2).2 = files w2
  ∧ trace (retrieve_model E name w2).2 =
      trace w2 ++ [EvMakedirs (MODELS_DIR E); EvHead (model_url name)].
Proof.
  intros Hrun Hfiles Hremote.
  apply run_eta in Hrun.
  destruct (retrieve_model_returns E name w p _ Hrun)
    as (-> & Hdir & r & new_etag & Hhead & Hst & Het & Hrec).
  rewrite (retrieve_model_unchanged E name w2 r new_etag) by congruence.
  by world_simpl.
Qed.

Lemma retrieve_model_twice_no_download_witness :
  (retrieve_model Demo.env "component" Demo.world_v2_resolved).1
  = Ok "/srv/http_service/models/componentmodel"
  ∧ files (retrieve_model Demo.env "component" Demo.world_v2_resolved).2
    = files Demo.world_v2_resolved
  ∧ trace (retrieve_model Demo.env "component" Demo.world_v2_resolved).2
    = trace Demo.world_v2_resolved
      ++ [EvMakedirs (MODELS_DIR Demo.env); EvHead (model_url "component")].
Proof.
  apply (retrieve_model_twice_no_download Demo.env "component" Demo.world_v2).
  - vm_compute; reflexivity.
  - reflexivity.
  - vm_compute; reflexivity.
Defined.

(** What a call that downloads leaves behind, whether or not the archive
    decodes to its end. *)
Lemma retrieve_model_download E name w r new_etag body :
  files w !! MODELS_DIR E = None →
  remote_head w !! model_url name = Some r →
  ¬ (400 ≤ status_code r < 600) →
  header_ETag r = Some new_etag →
  files w !! etag_path E name ≠ Some new_etag →
  remote_get w !! model_url name = Some body →
  let run := retrieve_model E name w in
  let complete := (lzma_decode E body).2 in
  run.1 = (if complete then Ok (model_file_path E name) else Raise LZMAError)
  ∧ files run.2 !! xz_path E name = Some body
  ∧ files run.2 !! model_file_path E name = Some (lzma_decode E body).1
  ∧ files run.2 !! etag_path E name =
      (if complete then Some new_etag else files w !! etag_path E name)
  ∧ trace run.2 =
      trace w ++ [EvMakedirs (MODELS_DIR E); EvHead (model_url name);
                  EvDownload (model_url name) (xz_path E name);
                  EvDecompress (xz_path E name) (model_file_path E name)]
              ++ (if complete then [EvWriteFile (etag_path E name)] else []).
Proof.
  intros Hdir Hhead Hst Het Hold Hget run complete. subst run complete.
  destruct (lzma_decode E body) as [decoded complete] eqn:Hdec.
  rewrite (retrieve_model_changed E name w r new_etag body decoded complete)
    by done.
  pose proof (xz_ne_file E name). pose proof (etag_ne_file E name).
  pose proof (etag_ne_xz E name).
  destruct complete; cbn [fst snd]; world_simpl.
  - rewrite lookup_insert_eq.
    rewrite (lookup_insert_ne _ (etag_path E name) (xz_path E name)) by done.
    rewrite (lookup_insert_ne _ (etag_path E name) (model_file_path E name)) by done.
    rewrite (lookup_insert_ne _ (model_file_path E name) (xz_path E name)) by done.
    by rewrite !lookup_insert_eq.
  - rewrite lookup_insert_eq.
    rewrite (lookup_insert_ne _ (model_file_path E name) (xz_path E name)) by done.
    rewrite (lookup_insert_ne _ (model_file_path E name) (etag_path E name)) by done.
    rewrite (lookup_insert_ne _ (xz_path E name) (etag_path E name)) by done.
    by rewrite lookup_insert_eq, app_nil_r.
Qed.

(** No call removes a file. *)
Lemma retrieve_model_keeps_files E name w path :
  is_Some (files w !! path) →
  is_Some (files (retrieve_model E name w).2 !! path).
Proof.
  intros Hsome.
  destruct (retrieve_model_cases E name w)
    as [e w' Hfail Hfs | r new_etag Hdir Hhead Hst Het Hold
        | r new_etag body Hdir Hhead Hst Het Hold Hget
        | r new_etag received Hdir Hhead Hst Het Hold Hget Hbroken].
  4: { rewrite (retrieve_model_broken E name w r new_etag received) by done.
       cbn [snd]. world_simpl. rewrite lookup_insert_is_Some'. by right. }
  - rewrite Hfail. cbn [snd]. by rewrite Hfs.
  - by rewrite (retrieve_model_unchanged E name w r new_etag).
  - destruct (lzma_decode E body) as [decoded complete] eqn:Hdec.
    rewrite (retrieve_model_changed E name w r new_etag body decoded complete)
      by done.
    destruct complete; cbn [snd]; world_simpl;
      rewrite ?lookup_insert_is_Some'; naive_solver.
Qed.

(** C7. When the remote fingerprint differs from the local record, or
    there is no local record, and the download succeeds, [retrieve_model]
    overwrites the artifact with what the archive decodes to; the
    fingerprint record takes the new value when the decoding reached the
    end of the archive and keeps its old content otherwise; on success the
    operations are, in order: directory creation, HEAD, download,
    decompression and, last, the write of the fingerprint record. *)
Theorem retrieve_model_changed_fingerprint
    E name w r new_etag body decoded complete :
  files w !! MODELS_DIR E = None →
  remote_head w !! model_url name = Some r →
  ¬ (400 ≤ status_code r < 600) →
  header_ETag r = Some new_etag →
  files w !! etag_path E name ≠ Some new_etag →
  remote_get w !! model_url name = Some body →
  lzma_decode E body = (decoded, complete) →
  files (retrieve_model E name w).2 !! model_file_path E name = Some decoded
  ∧ files (retrieve_model E name w).2 !! etag_path E name =
      (if complete then Some new_etag else files w !! etag_path E name)
  ∧ (complete = true →
     (retrieve_model E name w).1 = Ok (model_file_path E name)
     ∧ trace (retrieve_model E name w).2 =
         trace w ++ [EvMakedirs (MODELS_DIR E); EvHead (model_url name);
                     EvDownload (model_url name) (xz_path E name);
                     EvDecompress (xz_path E name) (model_file_path E name);
                     EvWriteFile (etag_path E name)]).
Proof.
  intros Hdir Hhead Hst Het Hold Hget Hdec.
  destruct (retrieve_model_download E name w r new_etag body)
    as (Hres & _ & Hfile & Hrec & Htrace); try done.
  rewrite Hdec in *. cbn [fst snd] in *.
  split; [done |]. split; [done |].
  intros ->. by rewrite Hres, Htrace.
Qed.

Lemma retrieve_model_changed_fingerprint_witness :
  files (retrieve_model Demo.env "component" Demo.world_v2).2
    !! model_file_path Demo.env "component" = Some "pickle2"
  ∧ files (retrieve_model Demo.env "component" Demo.world_v2).2
      !! etag_path Demo.env "component" = Some "v2"
  ∧ (true = true →
     (retrieve_model Demo.env "component" Demo.world_v2).1
       = Ok (model_file_path Demo.env "component")
     ∧ trace (retrieve_model Demo.env "component" Demo.world_v2).2 =
         trace Demo.world_v2
         ++ [EvMakedirs (MODELS_DIR Demo.env); EvHead (model_url "component");
             EvDownload (model_url "component") (xz_path Demo.env "component");
             EvDecompress (xz_path Demo.env "component")
               (model_file_path Demo.env "component");
             EvWriteFile (etag_path Demo.env "component")]).
Proof.
  apply (retrieve_model_changed_fingerprint Demo.env "component" Demo.world_v2
           (MkResponse 200 (Some "v2")) "v2" "xz:pickle2" "pickle2" true).
  - vm_compute; reflexivity.
  - vm_compute; reflexivity.
  - simpl; lia.
  - reflexivity.
  - vm_compute; discriminate.
  - vm_compute; reflexivity.
  - reflexivity.
Defined.

(** C4, as claimed, fails: the archive served for version [v2] is cut
    short, [retrieve_model] raises, and the artifact file, which held
    [pickle] before the call, holds [pic] after it. *)
Lemma decompression_failure_clobbers_artifact :
  (retrieve_model Demo.env "component" Demo.world_v2_cut).1 = Raise LZMAError
  ∧ files Demo.world_v2_cut !! "/srv/http_service/models/componentmodel"
    = Some "pickle"
  ∧ files (retrieve_model Demo.env "component" Demo.world_v2_cut).2
      !! "/srv/http_service/models/componentmodel"
    = Some "pic".
Proof. vm_compute. done. Qed.

(** C4, amended. When the decoding of a freshly downloaded archive fails
    mid-way, [retrieve_model] raises; the fingerprint record keeps exactly
    its content from before the call (or stays absent) and no write of it
    is issued; the artifact file does not keep its content: it holds the
    bytes decoded before the failure. *)
Theorem decompression_failure_keeps_fingerprint
    E name w r new_etag body decoded :
  files w !! MODELS_DIR E = None →
  remote_head w !! model_url name = Some r →
  ¬ (400 ≤ status_code r < 600) →
  header_ETag r = Some new_etag →
  files w !! etag_path E name ≠ Some new_etag →
  remote_get w !! model_url name = Some body →
  lzma_decode E body = (decoded, false) →
  (retrieve_model E name w).1 = Raise LZMAError
  ∧ files (retrieve_model E name w).2 !! etag_path E name
    = files w !! etag_path E name
  ∧ files (retrieve_model E name w).2 !! model_file_path E name = Some decoded
  ∧ trace (retrieve_model E name w).2 =
      trace w ++ [EvMakedirs (MODELS_DIR E); EvHead (model_url name);
                  EvDownload (model_url name) (xz_path E name);
                  EvDecompress (xz_path E name) (model_file_path E name)].
Proof.
  intros Hdir Hhead Hst Het Hold Hget Hdec.
  destruct (retrieve_model_download E name w r new_etag body)
    as (Hres & _ & Hfile & Hrec & Htrace); try done.
  rewrite Hdec in *. cbn [fst snd] in *.
  by rewrite app_nil_r in Htrace.
Qed.

Lemma decompression_failure_keeps_fingerprint_witness :
  (retrieve_model Demo.env "component" Demo.world_v2_cut).1 = Raise LZMAError
  ∧ files (retrieve_model Demo.env "component" Demo.world_v2_cut).2
      !! etag_path Demo.env "component"
    = files Demo.world_v2_cut !! etag_path Demo.env "component"
  ∧ files (retrieve_model Demo.env "component" Demo.world_v2_cut).2
      !! model_file_path Demo.env "component" = Some "pic"
  ∧ trace (retrieve_model Demo.env "component" Demo.world_v2_cut).2 =
      trace Demo.world_v2_cut
      ++ [EvMakedirs (MODELS_DIR Demo.env); EvHead (model_url "component");
          EvDownload (model_url "component") (xz_path Demo.env "component");
          EvDecompress (xz_path Demo.env "component")
            (model_file_path Demo.env "component")].
Proof.
  apply (decompression_failure_keeps_fingerprint Demo.env "component"
           Demo.world_v2_cut (MkResponse 200 (Some "v2")) "v2" "xz~pic" "pic").
  - vm_compute; reflexivity.
  - vm_compute; reflexivity.
  - simpl; lia.
  - reflexivity.
  - vm_compute; discriminate.
  - vm_compute; reflexivity.
  - reflexivity.
Defined.

(** C10. After a call of [retrieve_model] that downloads, the staging file
    [{name}model.xz] holds the downloaded archive, next to the artifact
    decoded from it; and no call of [retrieve_model] ever removes a file,
    so the staging file stays until a later download overwrites it. *)
Theorem staging_file_is_kept E name w r new_etag body :
  files w !! MODELS_DIR E = None →
  remote_head w !! model_url name = Some r →
  ¬ (400 ≤ status_code r < 600) →
  header_ETag r = Some new_etag →
  files w !! etag_path E name ≠ Some new_etag →
  remote_get w !! model_url name = Some body →
  files (retrieve_model E name w).2 !! xz_path E name = Some body
  ∧ files (retrieve_model E name w).2 !! model_file_path E name
    = Some (lzma_decode E body).1
  ∧ ∀ w2 path,
      is_Some (files w2 !! path) →
      is_Some (files (retrieve_model E name w2).2 !! path).
Proof.
  intros Hdir Hhead Hst Het Hold Hget.
  destruct (retrieve_model_download E name w r new_etag body)
    as (_ & Hxz & Hfile & _); try done.
  split; [done |]. split; [done |].
  intros w2 path. apply retrieve_model_keeps_files.
Qed.

Lemma staging_file_is_kept_witness :
  files (retrieve_model Demo.env "component" Demo.world_v2).2
    !! xz_path Demo.env "component" = Some "xz:pickle2"
  ∧ files (retrieve_model Demo.env "component" Demo.world_v2).2
      !! model_file_path Demo.env "component"
    = Some (lzma_decode Demo.env "xz:pickle2").1
  ∧ ∀ w2 path,
      is_Some (files w2 !! path) →
      is_Some (files (retrieve_model Demo.env "component" w2).2 !! path).
Proof.
  apply (staging_file_is_kept Demo.env "component" Demo.world_v2
           (MkResponse 200 (Some "v2")) "v2" "xz:pickle2").
  - vm_compute; reflexivity.
  - vm_compute; reflexivity.
  - simpl; lia.
  - reflexivity.
  - vm_compute; discriminate.
  - vm_compute; reflexivity.
Defined.

(** ** numpy and scikit-learn on well-shaped arrays *)

Lemma argmax_from_bound mp best i row :
  (best < i)%nat → (argmax_from mp best i row < i + length row)%nat.
Proof.
  revert mp best i. induction row as [| x row IH]; intros mp best i Hlt.
  - simpl. lia.
  - simpl. destruct (negb (PrimFloat.leb x mp)).
    + destruct (PrimFloat.is_nan x); [lia |].
      specialize (IH x i (S i)). lia.
    + specialize (IH mp best (S i)). lia.
Qed.

Lemma argmax_lt row i : argmax row = Ok i → (i < length row)%nat.
Proof.
  destruct row as [| x row]; [done |]. simpl. intros [= <-].
  destruct (PrimFloat.is_nan x); [lia |].
  pose proof (argmax_from_bound x 0 1 row). lia.
Qed.

Lemma argmax_nonempty row : row ≠ [] → ∃ i, argmax row = Ok i.
Proof. destruct row; [done | eauto]. Qed.

Lemma mapR_total {A B} (f : A → Result B) (P : B → Prop) l :
  Forall (fun x => ∃ y, f x = Ok y ∧ P y) l →
  ∃ ys, mapR f l = Ok ys ∧ Forall P ys ∧ length ys = length l.
Proof.
  induction 1 as [| x l (y & Hy & HP) _ (ys & Hys & HPs & Hlen)]; simpl.
  - by exists [].
  - rewrite Hy, Hys. exists (y :: ys). simpl. auto.
Qed.

(** On a well-shaped array with at least one row, [argmax], the inverse
    transform and the three [tolist()[0]] all succeed; the first index is
    the arg-max of the first row and the first label is its class. *)
Lemma classification_values classes row0 rest :
  well_shaped classes (row0 :: rest) →
  ∃ i0 idx s0 ss,
    argmax row0 = Ok i0
    ∧ (i0 < length row0)%nat
    ∧ classes !! i0 = Some s0
    ∧ ndarray_argmax (row0 :: rest) = Ok (i0 :: idx)
    ∧ inverse_transform classes (i0 :: idx) = Ok (s0 :: ss).
Proof.
  intros Hshape.
  destruct (mapR_total argmax (fun i => (i < length classes)%nat) (row0 :: rest))
    as (idxs & Hidx & Hbound & Hlen).
  { eapply Forall_impl; [exact Hshape |].
    intros row [Hne Hcols]. destruct (argmax_nonempty row Hne) as [i Hi].
    exists i. split; [done |]. rewrite <- Hcols. by apply argmax_lt. }
  destruct (mapR_total
              (fun y => match classes !! y with
                        | Some c => Ok c
                        | None => Raise ValueError
                        end) (fun _ => True) idxs)
    as (labels & Hlabels & _ & Hlen').
  { eapply Forall_impl; [exact Hbound |].
    intros i Hi. destruct (lookup_lt_is_Some_2 classes i Hi) as [c Hc].
    exists c. by rewrite Hc. }
  destruct idxs as [| i0 idx]; [done |].
  destruct labels as [| s0 ss]; [done |].
  exists i0, idx, s0, ss.
  assert (argmax row0 = Ok i0) as Hi0.
  { simpl in Hidx. destruct (argmax row0); [| done].
    destruct (mapR argmax rest); by simplify_eq. }
  assert (classes !! i0 = Some s0) as Hs0.
  { simpl in Hlabels. destruct (classes !! i0); [| done].
    destruct (mapR _ idx); by simplify_eq. }
  eauto 10 using argmax_lt.
Qed.

Lemma dict_getitem_missing {V} (d : list (string * V)) key :
  key ∉ d.*1 → dict_getitem d key = Raise (KeyError key).
Proof.
  induction d as [| [k v] d IH]; [done |]. simpl.
  rewrite not_elem_of_cons. intros [Hne Hnot].
  rewrite bool_decide_eq_false_2 by done. auto.
Qed.

(** ** The pipeline: [classify_bug] *)

(** With no record, the call publishes [unavailable] and returns. *)
Lemma classify_bug_no_record E model_name bug_id tok ttl w :
  bugzilla_bugs w (Some tok) bug_id = Ok [] →
  classify_bug E model_name bug_id tok ttl w =
    (Ok "OK",
     with_redis
       (if bool_decide (ttl ≤ 0) then delete (redis_key_of model_name bug_id) (redis w)
        else <[redis_key_of model_name bug_id := (unavailable, Some ttl)]> (redis w))
       (with_token (Some tok)
          (with_trace
             (trace w ++ [EvSetToken tok; EvFetchBugs bug_id;
                          EvRedisSet (redis_key_of model_name bug_id) unavailable;
                          EvRedisExpire (redis_key_of model_name bug_id) ttl]) w))).
Proof.
  intros Hbugs. rewrite classify_bug_fetch, Hbugs. cbv zeta.
  rewrite publish_run. f_equal. world_eq.
Qed.

(** The same, read off the result, the store and the trace, for a
    positive number of seconds. *)
Lemma classify_bug_no_record_facts E model_name bug_id tok ttl w :
  0 < ttl →
  bugzilla_bugs w (Some tok) bug_id = Ok [] →
  (classify_bug E model_name bug_id tok ttl w).1 = Ok "OK"
  ∧ redis (classify_bug E model_name bug_id tok ttl w).2
      !! redis_key_of model_name bug_id
    = Some (unavailable, Some ttl)
  ∧ files (classify_bug E model_name bug_id tok ttl w).2 = files w
  ∧ trace (classify_bug E model_name bug_id tok ttl w).2 =
      trace w ++
      [EvSetToken tok; EvFetchBugs bug_id;
       EvRedisSet (redis_key_of model_name bug_id) unavailable;
       EvRedisExpire (redis_key_of model_name bug_id) ttl].
Proof.
  intros Httl Hbugs.
  rewrite (classify_bug_no_record E model_name bug_id tok ttl w Hbugs).
  cbn [fst snd]. world_simpl.
  rewrite bool_decide_eq_false_2 by lia.
  by rewrite lookup_insert_eq.
Qed.

(** With records, a registered model on disk and a well-shaped answer of
    the predictor, the call publishes the shaped result and returns. *)
Lemma classify_bug_classified
    E model_name bug_id tok ttl w b bugs cls content model row0 rest :
  bugzilla_bugs w (Some tok) bug_id = Ok (b :: bugs) →
  dict_getitem MODELS model_name = Ok cls →
  files w !! model_file_path E model_name = Some content →
  model_load E cls content = Some model →
  classify_proba model ((b :: bugs).*2) = Ok (row0 :: rest) →
  well_shaped (le_classes model) (row0 :: rest) →
  ∃ i0 s0,
    argmax row0 = Ok i0
    ∧ (i0 < length row0)%nat
    ∧ le_classes model !! i0 = Some s0
    ∧ classify_bug E model_name bug_id tok ttl w =
        (Ok "OK",
         with_redis
           (if bool_decide (ttl ≤ 0)
            then delete (redis_key_of model_name bug_id) (redis w)
            else <[redis_key_of model_name bug_id :=
                     (json_dumps (result_data row0 i0 s0), Some ttl)]> (redis w))
           (with_token (Some tok)
              (with_trace
                 (trace w ++
                  [EvSetToken tok; EvFetchBugs bug_id;
                   EvLoadModel cls (model_file_path E model_name);
                   EvClassify (length (b :: bugs));
                   EvRedisSet (redis_key_of model_name bug_id)
                     (json_dumps (result_data row0 i0 s0));
                   EvRedisExpire (redis_key_of model_name bug_id) ttl]) w))).
Proof.
  intros Hbugs Hcls Hfile Hload Hprobs Hshape.
  destruct (classification_values _ _ _ Hshape)
    as (i0 & idx & s0 & ss & Hi0 & Hlt & Hs0 & Hidx & Hlabels).
  exists i0, s0. do 3 (split; [done |]).
  rewrite classify_bug_fetch, Hbugs. cbv zeta.
  unfold bind at 1. rewrite load_model_run, Hcls. world_simpl.
  rewrite Hfile, Hload.
  unfold bind at 1. rewrite Model_classify_run, Hprobs.
  rewrite bind_lift, Hidx, bind_lift, Hlabels.
  repeat (rewrite bind_lift; cbn [getitem0]).
  rewrite publish_run. f_equal.
  rewrite length_fmap. world_eq.
Qed.

(** Every call that fetched at least one record, step by step: the files
    are never touched; an unregistered name raises right after the fetch;
    otherwise the model is loaded from its local path, and then either
    some step up to the shaping of the result raises, with the store
    untouched, or the result is published and the call returns. *)
Lemma classify_bug_records E model_name bug_id tok ttl w b bugs :
  bugzilla_bugs w (Some tok) bug_id = Ok (b :: bugs) →
  files (classify_bug E model_name bug_id tok ttl w).2 = files w
  ∧ match dict_getitem MODELS model_name with
    | Raise e =>
        (classify_bug E model_name bug_id tok ttl w).1 = Raise e
        ∧ redis (classify_bug E model_name bug_id tok ttl w).2 = redis w
        ∧ trace (classify_bug E model_name bug_id tok ttl w).2 =
            trace w ++ [EvSetToken tok; EvFetchBugs bug_id]
    | Ok cls =>
        ∃ evs,
          trace (classify_bug E model_name bug_id tok ttl w).2 =
            trace w ++ [EvSetToken tok; EvFetchBugs bug_id;
                        EvLoadModel cls (model_file_path E model_name)] ++ evs
          ∧ (((classify_bug E model_name bug_id tok ttl w).1 = Ok "OK"
              ∧ ∃ value,
                  evs = [EvClassify (length (b :: bugs));
                         EvRedisSet (redis_key_of model_name bug_id) value;
                         EvRedisExpire (redis_key_of model_name bug_id) ttl])
             ∨ ((∃ e, (classify_bug E model_name bug_id tok ttl w).1 = Raise e)
                ∧ redis (classify_bug E model_name bug_id tok ttl w).2 = redis w
                ∧ (evs = [] ∨ evs = [EvClassify (length (b :: bugs))])))
    end.
Proof.
  intros Hbugs.
  destruct (classify_bug E model_name bug_id tok ttl w) as [res w'] eqn:Hrun.
  cbn [fst snd].
  rewrite classify_bug_fetch, Hbugs in Hrun. cbv zeta in Hrun.
  unfold bind at 1 in Hrun. rewrite load_model_run in Hrun.
  destruct (dict_getitem MODELS model_name) as [cls | e].
  2: { injection Hrun as Hr Hw. by subst res w'. }
  world_simpl_in Hrun.
  destruct (match files w !! model_file_path E model_name with
            | Some content =>
                match model_load E cls content with
                | Some m => Ok m
                | None => Raise UnpicklingError
                end
            | None => Raise (IOError (model_file_path E model_name))
            end) as [model | e].
  2: { injection Hrun as Hr Hw; subst res w'. world_simpl. split; [done |]. exists [].
       rewrite <- app_assoc. split; [done |]. right. eauto. }
  unfold bind at 1 in Hrun. rewrite Model_classify_run, length_fmap in Hrun.
  destruct (classify_proba model (b :: bugs).*2) as [probs | e].
  2: { injection Hrun as Hr Hw; subst res w'. world_simpl. split; [done |].
       exists [EvClassify (length (b :: bugs))].
       rewrite <- !app_assoc. split; [done |]. right. eauto. }
  repeat (rewrite bind_lift in Hrun;
          match type of Hrun with
          | context [match ?r with Ok _ => _ | Raise _ => _ end] =>
              destruct r;
              [| injection Hrun as Hr Hw; subst res w'; world_simpl; split; [done |];
                 exists [EvClassify (length (b :: bugs))];
                 rewrite <- !app_assoc; split; [done |]; right; eauto ]
          end).
  rewrite publish_run in Hrun. injection Hrun as Hr Hw; subst res w'.
  world_simpl. split; [done |].
  eexists. rewrite <- !app_assoc. split; [done |]. left. eauto.
Qed.

(** C1, as claimed, fails: one record is fetched, the call succeeds, and
    the operations issued are the token, the fetch, the load of the model
    from its local path, the inference and the two writes to the store;
    there is no fingerprint query, download or decompression among them. *)
Lemma classify_bug_does_not_resolve :
  bugzilla_bugs Demo.world_ready (Some "tok") 67 = Ok [(67, Demo.bug)]
  ∧ (classify_bug Demo.env "component" 67 "tok" 500 Demo.world_ready).1 = Ok "OK"
  ∧ trace (classify_bug Demo.env "component" 67 "tok" 500 Demo.world_ready).2 =
      [EvSetToken "tok"; EvFetchBugs 67;
       EvLoadModel ComponentModel "/srv/http_service/models/componentmodel";
       EvClassify 1;
       EvRedisSet "result_component_67"
         (json_dumps (result_data [0.1; 0.7; 0.2]%float 1 "Firefox::General"));
       EvRedisExpire "result_component_67" 500].
Proof. vm_compute. done. Qed.

(** C1, amended. When the record source returns at least one record and
    the name is registered, [classify_bug] loads the model straight from
    the local artifact path [{model_name}model]; it issues no operation of
    the conditional download (no directory creation, fingerprint query,
    download, decompression or fingerprint write) and leaves the files as
    they are. *)
Theorem classify_bug_loads_local_artifact
    E model_name bug_id tok ttl w bugs cls :
  bugzilla_bugs w (Some tok) bug_id = Ok bugs →
  bugs ≠ [] →
  dict_getitem MODELS model_name = Ok cls →
  files (classify_bug E model_name bug_id tok ttl w).2 = files w
  ∧ ∃ evs,
      trace (classify_bug E model_name bug_id tok ttl w).2 =
        trace w ++ [EvSetToken tok; EvFetchBugs bug_id;
                    EvLoadModel cls (model_file_path E model_name)] ++ evs
      ∧ forallb (fun ev => negb (resolve_event ev)) evs = true.
Proof.
  intros Hbugs Hne Hcls. destruct bugs as [| b bugs]; [done |].
  destruct (classify_bug_records E model_name bug_id tok ttl w b bugs Hbugs)
    as [Hfiles Hcases].
  rewrite Hcls in Hcases. destruct Hcases as (evs & Htrace & Hevs).
  split; [done |]. exists evs. split; [done |].
  destruct Hevs as [(_ & value & ->) | (_ & _ & [-> | ->])]; reflexivity.
Qed.

Lemma classify_bug_loads_local_artifact_witness :
  files (classify_bug Demo.env "component" 67 "tok" 500 Demo.world_ready).2
  = files Demo.world_ready
  ∧ ∃ evs,
      trace (classify_bug Demo.env "component" 67 "tok" 500 Demo.world_ready).2 =
        trace Demo.world_ready
        ++ [EvSetToken "tok"; EvFetchBugs 67;
            EvLoadModel ComponentModel (model_file_path Demo.env "component")]
        ++ evs
      ∧ forallb (fun ev => negb (resolve_event ev)) evs = true.
Proof.
  apply (classify_bug_loads_local_artifact Demo.env "component" 67 "tok" 500
           Demo.world_ready [(67, Demo.bug)] ComponentModel).
  - vm_compute; reflexivity.
  - discriminate.
  - vm_compute; reflexivity.
Defined.

(** What a call with records publishes when it runs to its end. *)
Lemma classify_bug_publishes E model_name bug_id tok ttl w bugs model probs :
  0 < ttl →
  bugzilla_bugs w (Some tok) bug_id = Ok bugs →
  bugs ≠ [] →
  classifiable E w model_name (bugs.*2) model probs →
  ∃ row0 i0 s0,
    head probs = Some row0
    ∧ length row0 = length (le_classes model)
    ∧ argmax row0 = Ok i0
    ∧ (i0 < length row0)%nat
    ∧ le_classes model !! i0 = Some s0
    ∧ (classify_bug E model_name bug_id tok ttl w).1 = Ok "OK"
    ∧ redis (classify_bug E model_name bug_id tok ttl w).2
        !! redis_key_of model_name bug_id
      = Some (json_dumps (result_data row0 i0 s0), Some ttl)
    ∧ ∃ cls,
        trace (classify_bug E model_name bug_id tok ttl w).2 =
          trace w ++
          [EvSetToken tok; EvFetchBugs bug_id;
           EvLoadModel cls (model_file_path E model_name);
           EvClassify (length bugs);
           EvRedisSet (redis_key_of model_name bug_id)
             (json_dumps (result_data row0 i0 s0));
           EvRedisExpire (redis_key_of model_name bug_id) ttl].
Proof.
  intros Httl Hbugs Hne
    (cls & content & Hcls & Hfile & Hload & Hprobs & Hrows & Hshape).
  destruct bugs as [| b bugs]; [done |].
  destruct probs as [| row0 rest]; [done |].
  destruct (classify_bug_classified E model_name bug_id tok ttl w b bugs cls
              content model row0 rest)
    as (i0 & s0 & Hi0 & Hlt & Hs0 & Hrun); try done.
  exists row0, i0, s0. rewrite Hrun. cbn [fst snd head]. world_simpl.
  rewrite bool_decide_eq_false_2 by lia. rewrite lookup_insert_eq.
  apply Forall_cons in Hshape as [[_ Hcols] _].
  eauto 12.
Qed.

(** C2, as claimed, fails, on the scenario of the specification: one
    record, probabilities [0.1, 0.7, 0.2].  The published object has the
    integer [1] under [indexes] and one string under [suggestions]; it is
    not made of three sequences of equal length. *)
Lemma published_result_is_not_three_sequences :
  redis (classify_bug Demo.env "component" 67 "tok" 500 Demo.world_ready).2
    !! "result_component_67"
  = Some (json_dumps (result_data [0.1; 0.7; 0.2]%float 1 "Firefox::General"),
          Some 500)
  ∧ ¬ flat_sequences (result_data [0.1; 0.7; 0.2]%float 1 "Firefox::General").
Proof.
  split; [vm_compute; reflexivity |].
  intros (probs & indexes & suggestions & Heq & _).
  unfold result_data in Heq. simplify_eq.
Qed.

(** C2, amended. When the record source returns at least one record and
    the classification runs to its end, the value published is the JSON
    object with [probs], the flat list of the probabilities of the first
    record, one per class; [indexes], a single integer, the position of
    the largest of them; and [suggestions], a single string, the label of
    that class. *)
Theorem published_result_shape E model_name bug_id tok ttl w bugs model probs :
  0 < ttl →
  bugzilla_bugs w (Some tok) bug_id = Ok bugs →
  bugs ≠ [] →
  classifiable E w model_name (bugs.*2) model probs →
  ∃ row0 i0 s0,
    redis (classify_bug E model_name bug_id tok ttl w).2
      !! redis_key_of model_name bug_id
    = Some (json_dumps
              (JObj [ ("probs", JList (JFloat <$> row0));
                      ("indexes", JInt (Z.of_nat i0));
                      ("suggestions", JStr s0) ]),
            Some ttl)
    ∧ head probs = Some row0
    ∧ length row0 = length (le_classes model)
    ∧ argmax row0 = Ok i0
    ∧ (i0 < length row0)%nat
    ∧ le_classes model !! i0 = Some s0.
Proof.
  intros Httl Hbugs Hne Hok.
  destruct (classify_bug_publishes E model_name bug_id tok ttl w bugs model probs)
    as (row0 & i0 & s0 & Hhead & Hcols & Hi0 & Hlt & Hs0 & _ & Hredis & _);
    try done.
  exists row0, i0, s0. eauto 10.
Qed.

Lemma demo_classifiable :
  classifiable Demo.env Demo.world_ready "component" ([(67, Demo.bug)].*2)
    Demo.predictor [[0.1; 0.7; 0.2]%float].
Proof.
  exists ComponentModel, "pickle".
  split; [vm_compute; reflexivity |].
  split; [vm_compute; reflexivity |].
  split; [reflexivity |]. split; [reflexivity |]. split; [reflexivity |].
  apply List.Forall_cons; [| apply List.Forall_nil].
  split; [discriminate | reflexivity].
Defined.

Lemma published_result_shape_witness :
  ∃ row0 i0 s0,
    redis (classify_bug Demo.env "component" 67 "tok" 500 Demo.world_ready).2
      !! redis_key_of "component" 67
    = Some (json_dumps
              (JObj [ ("probs", JList (JFloat <$> row0));
                      ("indexes", JInt (Z.of_nat i0));
                      ("suggestions", JStr s0) ]),
            Some 500)
    ∧ head [[0.1; 0.7; 0.2]%float] = Some row0
    ∧ length row0 = length (le_classes Demo.predictor)
    ∧ argmax row0 = Ok i0
    ∧ (i0 < length row0)%nat
    ∧ le_classes Demo.predictor !! i0 = Some s0.
Proof.
  apply (published_result_shape Demo.env "component" 67 "tok" 500
           Demo.world_ready [(67, Demo.bug)] Demo.predictor).
  - lia.
  - vm_compute; reflexivity.
  - discriminate.
  - exact demo_classifiable.
Defined.

(** C3, as claimed, fails twice over for the name [nosuch], which is not
    registered: [retrieve_model] queries the remote index, downloads and
    returns a path; and [classify_bug], when the record source has no
    record, writes to the result store and returns [OK]. *)
Lemma unregistered_model_is_not_rejected :
  bool_decide ("nosuch" ∈ MODELS_NAMES) = false
  ∧ (retrieve_model Demo.env "nosuch" Demo.world_unregistered).1
    = Ok "/srv/http_service/models/nosuchmodel"
  ∧ trace (retrieve_model Demo.env "nosuch" Demo.world_unregistered).2
    = [EvMakedirs "/srv/http_service/models";
       EvHead (model_url "nosuch");
       EvDownload (model_url "nosuch") "/srv/http_service/models/nosuchmodel.xz";
       EvDecompress "/srv/http_service/models/nosuchmodel.xz"
         "/srv/http_service/models/nosuchmodel";
       EvWriteFile "/srv/http_service/models/nosuchmodel.etag"]
  ∧ (classify_bug Demo.env "nosuch" 1 "tok" 500 Demo.empty_world).1 = Ok "OK"
  ∧ redis (classify_bug Demo.env "nosuch" 1 "tok" 500 Demo.empty_world).2
      !! "result_nosuch_1"
    = Some (unavailable, Some 500).
Proof. vm_compute. done. Qed.

(** C3, amended. For a name that is not registered, [classify_bug] on at
    least one record raises [KeyError] on the registry lookup, right
    after the record fetch: the token and the fetch are the only
    operations issued, no file is touched and nothing is written to the
    result store. *)
Theorem unregistered_model_with_records E model_name bug_id tok ttl w bugs :
  model_name ∉ MODELS_NAMES →
  bugzilla_bugs w (Some tok) bug_id = Ok bugs →
  bugs ≠ [] →
  (classify_bug E model_name bug_id tok ttl w).1 = Raise (KeyError model_name)
  ∧ files (classify_bug E model_name bug_id tok ttl w).2 = files w
  ∧ redis (classify_bug E model_name bug_id tok ttl w).2 = redis w
  ∧ trace (classify_bug E model_name bug_id tok ttl w).2 =
      trace w ++ [EvSetToken tok; EvFetchBugs bug_id].
Proof.
  intros Hnot Hbugs Hne. destruct bugs as [| b bugs]; [done |].
  destruct (classify_bug_records E model_name bug_id tok ttl w b bugs Hbugs)
    as [Hfiles Hcases].
  rewrite (dict_getitem_missing MODELS model_name Hnot) in Hcases.
  by destruct Hcases as (? & ? & ?).
Qed.

Lemma unregistered_model_with_records_witness :
  (classify_bug Demo.env "nosuch" 67 "tok" 500 Demo.world_with_bug).1
  = Raise (KeyError "nosuch")
  ∧ files (classify_bug Demo.env "nosuch" 67 "tok" 500 Demo.world_with_bug).2
    = files Demo.world_with_bug
  ∧ redis (classify_bug Demo.env "nosuch" 67 "tok" 500 Demo.world_with_bug).2
    = redis Demo.world_with_bug
  ∧ trace (classify_bug Demo.env "nosuch" 67 "tok" 500 Demo.world_with_bug).2 =
      trace Demo.world_with_bug ++ [EvSetToken "tok"; EvFetchBugs 67].
Proof.
  apply (unregistered_model_with_records Demo.env "nosuch" 67 "tok" 500
           Demo.world_with_bug [(67, Demo.bug)]).
  - apply (bool_decide_eq_false_1 _). vm_compute; reflexivity.
  - vm_compute; reflexivity.
  - discriminate.
Defined.

(** C6. When the record source returns no record, [classify_bug] sets
    the key [result_{model_name}_{bug_id}] to the JSON text of
    [{available: false}], gives it the expiry passed in, and returns
    [OK]; the token, the fetch and these two store operations are all it
    issues: no model is loaded, no inference runs, no file is touched. *)
Theorem classify_bug_without_record E model_name bug_id tok ttl w :
  0 < ttl →
  bugzilla_bugs w (Some tok) bug_id = Ok [] →
  (classify_bug E model_name bug_id tok ttl w).1 = Ok "OK"
  ∧ redis (classify_bug E model_name bug_id tok ttl w).2
      !! ("result_" +:+ model_name +:+ "_" +:+ pretty bug_id)
    = Some (json_dumps (JObj [("available", JBool false)]), Some ttl)
  ∧ files (classify_bug E model_name bug_id tok ttl w).2 = files w
  ∧ trace (classify_bug E model_name bug_id tok ttl w).2 =
      trace w ++
      [EvSetToken tok; EvFetchBugs bug_id;
       EvRedisSet ("result_" +:+ model_name +:+ "_" +:+ pretty bug_id)
         (json_dumps (JObj [("available", JBool false)]));
       EvRedisExpire ("result_" +:+ model_name +:+ "_" +:+ pretty bug_id) ttl].
Proof.
  intros Httl Hbugs.
  exact (classify_bug_no_record_facts E model_name bug_id tok ttl w Httl Hbugs).
Qed.

Lemma classify_bug_without_record_witness :
  (classify_bug Demo.env "regression" 12345 "tok" 500 Demo.empty_world).1 = Ok "OK"
  ∧ redis (classify_bug Demo.env "regression" 12345 "tok" 500 Demo.empty_world).2
      !! ("result_" +:+ "regression" +:+ "_" +:+ pretty 12345)
    = Some (json_dumps (JObj [("available", JBool false)]), Some 500)
  ∧ files (classify_bug Demo.env "regression" 12345 "tok" 500 Demo.empty_world).2
    = files Demo.empty_world
  ∧ trace (classify_bug Demo.env "regression" 12345 "tok" 500 Demo.empty_world).2 =
      trace Demo.empty_world ++
      [EvSetToken "tok"; EvFetchBugs 12345;
       EvRedisSet ("result_" +:+ "regression" +:+ "_" +:+ pretty 12345)
         (json_dumps (JObj [("available", JBool false)]));
       EvRedisExpire ("result_" +:+ "regression" +:+ "_" +:+ pretty 12345) 500].
Proof.
  apply (classify_bug_without_record Demo.env "regression" 12345 "tok" 500
           Demo.empty_world).
  - lia.
  - reflexivity.
Defined.

Example redis_key_of_regression_12345 :
  redis_key_of "regression" 12345 = "result_regression_12345".
Proof. vm_compute. reflexivity. Qed.

(** C8. In both branches, [classify_bug] returns [OK] and writes its
    result under the key [result_{model_name}_{bug_id}] with the expiry
    passed in.  The value written is the JSON text of
    [{available: false}] when no record was fetched, and the JSON text of
    the classification of the first record (its row of probabilities,
    the position of the largest and the label of that class) when records
    were fetched and classified; the set of the key with that value and
    its expiry are the last two operations and the only ones on the
    store.  The call without the last argument writes the same value with
    an expiry of 500 seconds. *)
Theorem classify_bug_writes_key_and_returns_OK
    E model_name bug_id tok ttl w bugs model probs :
  0 < ttl →
  bugzilla_bugs w (Some tok) bug_id = Ok bugs →
  bugs = [] ∨ classifiable E w model_name (bugs.*2) model probs →
  ∃ value,
    (bugs = [] → value = json_dumps (JObj [("available", JBool false)]))
    ∧ (bugs ≠ [] →
       ∃ row0 i0 s0,
         head probs = Some row0
         ∧ argmax row0 = Ok i0
         ∧ le_classes model !! i0 = Some s0
         ∧ value = json_dumps
                     (JObj [ ("probs", JList (JFloat <$> row0));
                             ("indexes", JInt (Z.of_nat i0));
                             ("suggestions", JStr s0) ]))
    ∧ (classify_bug E model_name bug_id tok ttl w).1 = Ok "OK"
    ∧ redis (classify_bug E model_name bug_id tok ttl w).2
        !! ("result_" +:+ model_name +:+ "_" +:+ pretty bug_id)
      = Some (value, Some ttl)
    ∧ (∃ evs,
         trace (classify_bug E model_name bug_id tok ttl w).2 =
           trace w ++ evs ++
           [EvRedisSet ("result_" +:+ model_name +:+ "_" +:+ pretty bug_id) value;
            EvRedisExpire ("result_" +:+ model_name +:+ "_" +:+ pretty bug_id) ttl]
         ∧ forallb (fun ev => negb (store_event ev)) evs = true)
    ∧ (classify_bug_default E model_name bug_id tok w).1 = Ok "OK"
    ∧ redis (classify_bug_default E model_name bug_id tok w).2
        !! ("result_" +:+ model_name +:+ "_" +:+ pretty bug_id)
      = Some (value, Some 500).
Proof.
  intros Httl Hbugs Hbranch.
  fold (redis_key_of model_name bug_id). unfold classify_bug_default.
  destruct bugs as [| b bugs].
  - destruct (classify_bug_no_record_facts E model_name bug_id tok ttl w)
      as (Hres & Hredis & _ & Htrace); [done | done |].
    destruct (classify_bug_no_record_facts E model_name bug_id tok 500 w)
      as (Hres' & Hredis' & _); [lia | done |].
    exists unavailable. split; [done |]. split; [done |].
    split; [done |]. split; [done |]. split; [| done].
    exists [EvSetToken tok; EvFetchBugs bug_id]. by rewrite Htrace.
  - destruct Hbranch as [? | Hok]; [done |].
    destruct (classify_bug_publishes E model_name bug_id tok ttl w
                (b :: bugs) model probs)
      as (row0 & i0 & s0 & Hhead & _ & Hi0 & _ & Hs0 & Hres & Hredis
          & cls & Htrace); try done.
    destruct (classify_bug_publishes E model_name bug_id tok 500 w
                (b :: bugs) model probs)
      as (row0' & i0' & s0' & Hhead' & _ & Hi0' & _ & Hs0' & Hres' & Hredis'
          & _); try done.
    assert (row0' = row0) as -> by congruence.
    assert (i0' = i0) as -> by congruence.
    assert (s0' = s0) as -> by congruence.
    exists (json_dumps (result_data row0 i0 s0)).
    split; [done |]. split; [intros _; by exists row0, i0, s0 |].
    split; [done |]. split; [done |]. split; [| done].
    exists [EvSetToken tok; EvFetchBugs bug_id;
            EvLoadModel cls (model_file_path E model_name);
            EvClassify (length (b :: bugs))].
    by rewrite Htrace.
Qed.

Lemma classify_bug_writes_key_and_returns_OK_witness :
  ∃ value,
    ([(67, Demo.bug)] = [] → value = json_dumps (JObj [("available", JBool false)]))
    ∧ ([(67, Demo.bug)] ≠ [] →
       ∃ row0 i0 s0,
         head [[0.1; 0.7; 0.2]%float] = Some row0
         ∧ argmax row0 = Ok i0
         ∧ le_classes Demo.predictor !! i0 = Some s0
         ∧ value = json_dumps
                     (JObj [ ("probs", JList (JFloat <$> row0));
                             ("indexes", JInt (Z.of_nat i0));
                             ("suggestions", JStr s0) ]))
    ∧ (classify_bug Demo.env "component" 67 "tok" 500 Demo.world_ready).1 = Ok "OK"
    ∧ redis (classify_bug Demo.env "component" 67 "tok" 500 Demo.world_ready).2
        !! ("result_" +:+ "component" +:+ "_" +:+ pretty 67)
      = Some (value, Some 500)
    ∧ (∃ evs,
         trace (classify_bug Demo.env "component" 67 "tok" 500 Demo.world_ready).2 =
           trace Demo.world_ready ++ evs ++
           [EvRedisSet ("result_" +:+ "component" +:+ "_" +:+ pretty 67) value;
            EvRedisExpire ("result_" +:+ "component" +:+ "_" +:+ pretty 67) 500]
         ∧ forallb (fun ev => negb (store_event ev)) evs = true)
    ∧ (classify_bug_default Demo.env "component" 67 "tok" Demo.world_ready).1
      = Ok "OK"
    ∧ redis (classify_bug_default Demo.env "component" 67 "tok" Demo.world_ready).2
        !! ("result_" +:+ "component" +:+ "_" +:+ pretty 67)
      = Some (value, Some 500).
Proof.
  apply (classify_bug_writes_key_and_returns_OK Demo.env "component" 67 "tok" 500
           Demo.world_ready [(67, Demo.bug)] Demo.predictor
           [[0.1; 0.7; 0.2]%float]).
  - lia.
  - vm_compute; reflexivity.
  - right. exact demo_classifiable.
Defined.

(** The two scenarios of the specification, evaluated: no record for bug
    12345 with the default expiry, and one record for bug 67. *)
Example classify_bug_default_without_record :
  (classify_bug_default Demo.env "regression" 12345 "tok" Demo.empty_world).1
  = Ok "OK"
  ∧ redis (classify_bug_default Demo.env "regression" 12345 "tok" Demo.empty_world).2
      !! "result_regression_12345"
    = Some (json_dumps (JObj [("available", JBool false)]), Some 500).
Proof. vm_compute. done. Qed.

Example classify_bug_default_with_record :
  (classify_bug_default Demo.env "component" 67 "tok" Demo.world_ready).1 = Ok "OK"
  ∧ redis (classify_bug_default Demo.env "component" 67 "tok" Demo.world_ready).2
      !! "result_component_67"
    = Some (json_dumps
              (JObj [ ("probs", JList [JFloat 0.1; JFloat 0.7; JFloat 0.2]);
                      ("indexes", JInt 1);
                      ("suggestions", JStr "Firefox::General") ]),
            Some 500).
Proof. vm_compute. done. Qed.

(** C9. When [classify_bug] has fetched at least one record and then
    raises, whatever the step that raised (registry lookup, model load,
    inference, shaping of the result), the result store is as it was
    before the call and no set or expire has been issued: both come after
    the result has been shaped. *)
Theorem failed_classification_writes_nothing
    E model_name bug_id tok ttl w bugs e :
  bugzilla_bugs w (Some tok) bug_id = Ok bugs →
  bugs ≠ [] →
  (classify_bug E model_name bug_id tok ttl w).1 = Raise e →
  redis (classify_bug E model_name bug_id tok ttl w).2 = redis w
  ∧ ∃ evs,
      trace (classify_bug E model_name bug_id tok ttl w).2 = trace w ++ evs
      ∧ forallb (fun ev => negb (store_event ev)) evs = true.
Proof.
  intros Hbugs Hne Hraise. destruct bugs as [| b bugs]; [done |].
  destruct (classify_bug_records E model_name bug_id tok ttl w b bugs Hbugs)
    as [_ Hcases].
  destruct (dict_getitem MODELS model_name) as [cls | e'].
  - destruct Hcases as (evs & Htrace & [(Hok & _) | (_ & Hredis & Hevs)]).
    + congruence.
    + split; [done |]. eexists. split; [exact Htrace |].
      by destruct Hevs as [-> | ->].
  - destruct Hcases as (_ & Hredis & Htrace). split; [done |]. by eexists.
Qed.

Lemma failed_classification_writes_nothing_witness :
  redis (classify_bug Demo.env "component" 67 "tok" 500 Demo.world_with_bug).2
  = redis Demo.world_with_bug
  ∧ ∃ evs,
      trace (classify_bug Demo.env "component" 67 "tok" 500 Demo.world_with_bug).2
      = trace Demo.world_with_bug ++ evs
      ∧ forallb (fun ev => negb (store_event ev)) evs = true.
Proof.
  apply (failed_classification_writes_nothing Demo.env "component" 67 "tok" 500
           Demo.world_with_bug [(67, Demo.bug)]
           (IOError "/srv/http_service/models/componentmodel")).
  - vm_compute; reflexivity.
  - discriminate.
  - vm_compute; reflexivity.
Defined.

(** * Further properties of the module *)

(** ** More vocabulary *)

(** The remote index changes on its own between two calls: [w] with the
    answers [head] and [get] of the index. *)
Definition with_remote (head : gmap string Response) (get : gmap string string)
    (w : World) : World :=
  MkWorld (files w) head get (remote_broken w) (bugzilla_token w)
          (bugzilla_bugs w) (redis w) (trace w).

(** ** More instances *)

Module Scenario.

(** The models directory path is taken by a regular file. *)
Definition world_dir_is_file : World :=
  with_files {[ "/srv/http_service/models" := "not a directory" ]} Demo.empty_world.

(** The remote index answers the fingerprint query for the component
    model with [head], and serves [body] if there is one. *)
Definition world_answering (head : Response) (body : option string) : World :=
  {| files := Demo.disk_v1;
     remote_head := {[ model_url "component" := head ]};
     remote_get := from_option (fun b => {[ model_url "component" := b ]}) ∅ body;
     remote_broken := ∅;
     bugzilla_token := None;
     bugzilla_bugs := fun _ _ => Ok [];
     redis := ∅;
     trace := [] |}.

(** Version [v2] is announced, and its transfer breaks after six bytes. *)
Definition world_transfer_breaks : World :=
  {| files := Demo.disk_v1;
     remote_head := {[ model_url "component" := MkResponse 200 (Some "v2") ]};
     remote_get := ∅;
     remote_broken := {[ model_url "component" := "xz:pic" ]};
     bugzilla_token := None;
     bugzilla_bugs := fun _ _ => Ok [];
     redis := ∅;
     trace := [] |}.

(** The fingerprint record is there and current, the artifact is not. *)
Definition world_record_only : World :=
  Demo.world_remote "component" "v1" "xz:pickle"
    {[ "/srv/http_service/models/componentmodel.etag" := "v1" ]}.

(** The record source raises for every identifier. *)
Definition world_bugzilla_down : World :=
  {| files := ∅; remote_head := ∅; remote_get := ∅; remote_broken := ∅;
     bugzilla_token := None;
     bugzilla_bugs := fun _ _ => Raise BugzillaError;
     redis := {[ "result_component_67" := (unavailable, Some 10) ]};
     trace := [] |}.

(** One bug for identifier 67, version [v2] on the remote index, version
    [v1] on disk. *)
Definition world_v2_with_bug : World :=
  {| files := Demo.disk_v1;
     remote_head := {[ model_url "component" := MkResponse 200 (Some "v2") ]};
     remote_get := {[ model_url "component" := "xz:pickle" ]};
     remote_broken := ∅;
     bugzilla_token := None;
     bugzilla_bugs := fun _ id => if bool_decide (id = 67) then Ok [(67, Demo.bug)] else Ok [];
     redis := ∅;
     trace := [] |}.

End Scenario.

(** ** [retrieve_model]: the ways it raises before writing *)

(** X1. When the path of the models directory is taken by a regular file,
    [retrieve_model] raises [FileExistsError] on the directory creation:
    no request is sent and nothing else happens. *)
Theorem retrieve_model_directory_conflict E name w content :
  files w !! MODELS_DIR E = Some content →
  retrieve_model E name w =
    (Raise (FileExistsError (MODELS_DIR E)),
     with_trace (trace w ++ [EvMakedirs (MODELS_DIR E)]) w).
Proof.
  intros Hdir. unfold retrieve_model, bind at 1, os_makedirs.
  rewrite bind_emit. world_simpl. by rewrite Hdir.
Qed.

Lemma retrieve_model_directory_conflict_witness :
  retrieve_model Demo.env "component" Scenario.world_dir_is_file =
    (Raise (FileExistsError (MODELS_DIR Demo.env)),
     with_trace (trace Scenario.world_dir_is_file ++ [EvMakedirs (MODELS_DIR Demo.env)])
       Scenario.world_dir_is_file).
Proof.
  apply (retrieve_model_directory_conflict Demo.env "component"
           Scenario.world_dir_is_file "not a directory").
  vm_compute; reflexivity.
Defined.

(** X2. When the fingerprint query answers with a client or server error
    status, [retrieve_model] raises [HTTPError] with that status, whatever
    the local state: the directory creation and the HEAD request are the
    only operations, and no file is read or written. *)
Theorem retrieve_model_error_status E name w r :
  files w !! MODELS_DIR E = None →
  remote_head w !! model_url name = Some r →
  400 ≤ status_code r < 600 →
  retrieve_model E name w =
    (Raise (HTTPError (status_code r)),
     with_trace (trace w ++ [EvMakedirs (MODELS_DIR E); EvHead (model_url name)]) w).
Proof.
  intros Hdir Hhead Hst. resolve_start E name. repeat resolve_step.
  unfold bind at 1, raise_for_status. rewrite bool_decide_eq_true_2 by done.
  unfold raise. f_equal. world_eq.
Qed.

Lemma retrieve_model_error_status_witness :
  retrieve_model Demo.env "component"
    (Scenario.world_answering (MkResponse 404 None) None) =
    (Raise (HTTPError (status_code (MkResponse 404 None))),
     with_trace
       (trace (Scenario.world_answering (MkResponse 404 None) None)
        ++ [EvMakedirs (MODELS_DIR Demo.env); EvHead (model_url "component")])
       (Scenario.world_answering (MkResponse 404 None) None)).
Proof.
  apply (retrieve_model_error_status Demo.env "component"
           (Scenario.world_answering (MkResponse 404 None) None)
           (MkResponse 404 None)).
  - vm_compute; reflexivity.
  - vm_compute; reflexivity.
  - simpl; lia.
Defined.

(** X3. When the answer to the fingerprint query has a success status but
    no [ETag] header, [retrieve_model] raises [KeyError] on the header
    lookup: the cache is not used and nothing is downloaded, even when a
    complete artifact and record are on disk. *)
Theorem retrieve_model_missing_ETag E name w r :
  files w !! MODELS_DIR E = None →
  remote_head w !! model_url name = Some r →
  ¬ (400 ≤ status_code r < 600) →
  header_ETag r = None →
  retrieve_model E name w =
    (Raise (KeyError "ETag"),
     with_trace (trace w ++ [EvMakedirs (MODELS_DIR E); EvHead (model_url name)]) w).
Proof.
  intros Hdir Hhead Hst Het. resolve_start E name. repeat resolve_step.
  unfold bind at 1, headers_ETag. rewrite Het.
  unfold raise. f_equal. world_eq.
Qed.

Lemma retrieve_model_missing_ETag_witness :
  retrieve_model Demo.env "component"
    (Scenario.world_answering (MkResponse 200 None) (Some "xz:pickle2")) =
    (Raise (KeyError "ETag"),
     with_trace
       (trace (Scenario.world_answering (MkResponse 200 None) (Some "xz:pickle2"))
        ++ [EvMakedirs (MODELS_DIR Demo.env); EvHead (model_url "component")])
       (Scenario.world_answering (MkResponse 200 None) (Some "xz:pickle2"))).
Proof.
  apply (retrieve_model_missing_ETag Demo.env "component"
           (Scenario.world_answering (MkResponse 200 None) (Some "xz:pickle2"))
           (MkResponse 200 None)).
  - vm_compute; reflexivity.
  - vm_compute; reflexivity.
  - simpl; lia.
  - reflexivity.
Defined.

(** X4. When the fingerprint has changed and the download fails,
    [retrieve_model] raises after the download attempt: nothing is
    decompressed, and the artifact, the fingerprint record and every file
    other than the staging file are as before the call.  The staging file
    is untouched when the request is refused, and holds the bytes
    received when the transfer breaks part-way. *)
Theorem retrieve_model_download_fails E name w r new_etag :
  files w !! MODELS_DIR E = None →
  remote_head w !! model_url name = Some r →
  ¬ (400 ≤ status_code r < 600) →
  header_ETag r = Some new_etag →
  files w !! etag_path E name ≠ Some new_etag →
  remote_get w !! model_url name = None →
  (retrieve_model E name w).1 =
    Raise (match remote_broken w !! model_url name with
           | Some _ => ContentTooShortError
           | None => URLError
           end)
  ∧ files (retrieve_model E name w).2 !! xz_path E name =
      match remote_broken w !! model_url name with
      | Some received => Some received
      | None => files w !! xz_path E name
      end
  ∧ files (retrieve_model E name w).2 !! model_file_path E name
    = files w !! model_file_path E name
  ∧ files (retrieve_model E name w).2 !! etag_path E name
    = files w !! etag_path E name
  ∧ (∀ path, path ≠ xz_path E name →
       files (retrieve_model E name w).2 !! path = files w !! path)
  ∧ trace (retrieve_model E name w).2 =
      trace w ++ [EvMakedirs (MODELS_DIR E); EvHead (model_url name);
                  EvDownload (model_url name) (xz_path E name)].
Proof.
  intros Hdir Hhead Hst Het Hold Hget.
  pose proof (xz_ne_file E name) as Hxf. pose proof (etag_ne_xz E name) as Hex.
  destruct (remote_broken w !! model_url name) as [received |] eqn:Hbroken.
  - rewrite (retrieve_model_broken E name w r new_etag received) by done.
    cbn [fst snd]. world_simpl. rewrite lookup_insert_eq.
    rewrite !lookup_insert_ne by done.
    repeat split. intros path Hpath. by rewrite lookup_insert_ne.
  - assert (retrieve_model E name w =
              (Raise URLError,
               with_trace
                 (trace w ++ [EvMakedirs (MODELS_DIR E); EvHead (model_url name);
                              EvDownload (model_url name) (xz_path E name)]) w))
      as ->.
    { resolve_start E name. repeat resolve_step.
      world_simpl. rewrite bool_decide_eq_true_2 by done.
      unfold bind at 1, bind at 1, urlretrieve. rewrite bind_emit. world_simpl.
      rewrite Hget, Hbroken. f_equal. world_eq. }
    by cbn [fst snd].
Qed.

Lemma retrieve_model_download_fails_witness :
  (retrieve_model Demo.env "component" Scenario.world_transfer_breaks).1 =
    Raise (match remote_broken Scenario.world_transfer_breaks
                 !! model_url "component" with
           | Some _ => ContentTooShortError
           | None => URLError
           end)
  ∧ files (retrieve_model Demo.env "component" Scenario.world_transfer_breaks).2
      !! xz_path Demo.env "component" =
      match remote_broken Scenario.world_transfer_breaks
              !! model_url "component" with
      | Some received => Some received
      | None => files Scenario.world_transfer_breaks !! xz_path Demo.env "component"
      end
  ∧ files (retrieve_model Demo.env "component" Scenario.world_transfer_breaks).2
      !! model_file_path Demo.env "component"
    = files Scenario.world_transfer_breaks !! model_file_path Demo.env "component"
  ∧ files (retrieve_model Demo.env "component" Scenario.world_transfer_breaks).2
      !! etag_path Demo.env "component"
    = files Scenario.world_transfer_breaks !! etag_path Demo.env "component"
  ∧ (∀ path, path ≠ xz_path Demo.env "component" →
       files (retrieve_model Demo.env "component" Scenario.world_transfer_breaks).2
         !! path
       = files Scenario.world_transfer_breaks !! path)
  ∧ trace (retrieve_model Demo.env "component" Scenario.world_transfer_breaks).2 =
      trace Scenario.world_transfer_breaks
      ++ [EvMakedirs (MODELS_DIR Demo.env); EvHead (model_url "component");
          EvDownload (model_url "component") (xz_path Demo.env "component")].
Proof.
  apply (retrieve_model_download_fails Demo.env "component"
           Scenario.world_transfer_breaks (MkResponse 200 (Some "v2")) "v2").
  - vm_compute; reflexivity.
  - vm_compute; reflexivity.
  - simpl; lia.
  - reflexivity.
  - vm_compute; discriminate.
  - vm_compute; reflexivity.
Defined.

(** On that instance the transfer breaks: the call raises
    [ContentTooShortError] and the staging file holds the bytes received. *)
Example retrieve_model_transfer_breaks :
  (retrieve_model Demo.env "component" Scenario.world_transfer_breaks).1
  = Raise ContentTooShortError
  ∧ files (retrieve_model Demo.env "component" Scenario.world_transfer_breaks).2
      !! "/srv/http_service/models/componentmodel.xz" = Some "xz:pic"
  ∧ files (retrieve_model Demo.env "component" Scenario.world_transfer_breaks).2
      !! "/srv/http_service/models/componentmodel" = Some "pickle".
Proof. vm_compute. done. Qed.

(** ** [retrieve_model] and [load_model] in sequence *)

(** The local state after a call that downloaded. *)
Lemma retrieve_model_download_state E name w r new_etag body :
  files w !! MODELS_DIR E = None →
  remote_head w !! model_url name = Some r →
  ¬ (400 ≤ status_code r < 600) →
  header_ETag r = Some new_etag →
  files w !! etag_path E name ≠ Some new_etag →
  remote_get w !! model_url name = Some body →
  files (retrieve_model E name w).2 !! MODELS_DIR E = None
  ∧ bugzilla_bugs (retrieve_model E name w).2 = bugzilla_bugs w
  ∧ redis (retrieve_model E name w).2 = redis w.
Proof.
  intros Hdir Hhead Hst Het Hold Hget.
  destruct (lzma_decode E body) as [decoded complete] eqn:Hdec.
  rewrite (retrieve_model_changed E name w r new_etag body decoded complete)
    by done.
  destruct complete; cbn [snd]; world_simpl; (split; [| done]);
    (rewrite !lookup_insert_ne; first done; by_last_char).
Qed.

(** X5. A failed decompression is not mistaken for a filled cache: when
    the next call sees the same remote fingerprint, it downloads and
    decompresses again, and the cache is complete as soon as the archive
    served decodes to its end. *)
Theorem failed_decompression_is_retried
    E name w r new_etag body decoded w2 body2 :
  files w !! MODELS_DIR E = None →
  remote_head w !! model_url name = Some r →
  ¬ (400 ≤ status_code r < 600) →
  header_ETag r = Some new_etag →
  files w !! etag_path E name ≠ Some new_etag →
  remote_get w !! model_url name = Some body →
  lzma_decode E body = (decoded, false) →
  files w2 = files (retrieve_model E name w).2 →
  remote_head w2 !! model_url name = Some r →
  remote_get w2 !! model_url name = Some body2 →
  (retrieve_model E name w2).1 =
    (if (lzma_decode E body2).2 then Ok (model_file_path E name)
     else Raise LZMAError)
  ∧ files (retrieve_model E name w2).2 !! model_file_path E name
    = Some (lzma_decode E body2).1
  ∧ files (retrieve_model E name w2).2 !! etag_path E name
    = (if (lzma_decode E body2).2 then Some new_etag
       else files w !! etag_path E name)
  ∧ trace (retrieve_model E name w2).2 =
      trace w2 ++ [EvMakedirs (MODELS_DIR E); EvHead (model_url name);
                   EvDownload (model_url name) (xz_path E name);
                   EvDecompress (xz_path E name) (model_file_path E name)]
               ++ (if (lzma_decode E body2).2
                   then [EvWriteFile (etag_path E name)] else []).
Proof.
  intros Hdir Hhead Hst Het Hold Hget Hdec Hfiles Hhead2 Hget2.
  destruct (retrieve_model_download E name w r new_etag body)
    as (_ & _ & _ & Hrec & _); try done.
  destruct (retrieve_model_download_state E name w r new_etag body)
    as (Hdir1 & _); try done.
  rewrite Hdec in Hrec. cbn [snd] in Hrec.
  destruct (retrieve_model_download E name w2 r new_etag body2)
    as (Hres & _ & Hfile & Hrec2 & Htrace); try done.
  - by rewrite Hfiles.
  - by rewrite Hfiles, Hrec.
  - rewrite Hfiles, Hrec in Hrec2. done.
Qed.

Lemma failed_decompression_is_retried_witness :
  (retrieve_model Demo.env "component"
     (retrieve_model Demo.env "component" Demo.world_v2_cut).2).1 =
    (if (lzma_decode Demo.env "xz~pic").2
     then Ok (model_file_path Demo.env "component")
     else Raise LZMAError)
  ∧ files (retrieve_model Demo.env "component"
             (retrieve_model Demo.env "component" Demo.world_v2_cut).2).2
      !! model_file_path Demo.env "component"
    = Some (lzma_decode Demo.env "xz~pic").1
  ∧ files (retrieve_model Demo.env "component"
             (retrieve_model Demo.env "component" Demo.world_v2_cut).2).2
      !! etag_path Demo.env "component"
    = (if (lzma_decode Demo.env "xz~pic").2 then Some "v2"
       else files Demo.world_v2_cut !! etag_path Demo.env "component")
  ∧ trace (retrieve_model Demo.env "component"
             (retrieve_model Demo.env "component" Demo.world_v2_cut).2).2 =
      trace (retrieve_model Demo.env "component" Demo.world_v2_cut).2
      ++ [EvMakedirs (MODELS_DIR Demo.env); EvHead (model_url "component");
          EvDownload (model_url "component") (xz_path Demo.env "component");
          EvDecompress (xz_path Demo.env "component")
            (model_file_path Demo.env "component")]
      ++ (if (lzma_decode Demo.env "xz~pic").2
          then [EvWriteFile (etag_path Demo.env "component")] else []).
Proof.
  apply (failed_decompression_is_retried Demo.env "component" Demo.world_v2_cut
           (MkResponse 200 (Some "v2")) "v2" "xz~pic" "pic").
  - vm_compute; reflexivity.
  - vm_compute; reflexivity.
  - simpl; lia.
  - reflexivity.
  - vm_compute; discriminate.
  - vm_compute; reflexivity.
  - reflexivity.
  - reflexivity.
  - vm_compute; reflexivity.
  - vm_compute; reflexivity.
Defined.

(** X6. The fingerprint record alone decides whether the cache is
    current.  After a failed decompression of a new version, if the
    remote index answers again with the fingerprint that the record
    holds, [retrieve_model] returns the artifact path without
    downloading, although the artifact holds the bytes left by the failed
    decompression. *)
Theorem stale_record_hides_clobbered_artifact
    E name w r new_etag old_etag body decoded head get r2 :
  files w !! MODELS_DIR E = None →
  remote_head w !! model_url name = Some r →
  ¬ (400 ≤ status_code r < 600) →
  header_ETag r = Some new_etag →
  files w !! etag_path E name = Some old_etag →
  old_etag ≠ new_etag →
  remote_get w !! model_url name = Some body →
  lzma_decode E body = (decoded, false) →
  head !! model_url name = Some r2 →
  ¬ (400 ≤ status_code r2 < 600) →
  header_ETag r2 = Some old_etag →
  (retrieve_model E name
     (with_remote head get (retrieve_model E name w).2)).1
  = Ok (model_file_path E name)
  ∧ files (retrieve_model E name
             (with_remote head get (retrieve_model E name w).2)).2
      !! model_file_path E name = Some decoded
  ∧ trace (retrieve_model E name
             (with_remote head get (retrieve_model E name w).2)).2 =
      trace (retrieve_model E name w).2
      ++ [EvMakedirs (MODELS_DIR E); EvHead (model_url name)].
Proof.
  intros Hdir Hhead Hst Het Hold Hne Hget Hdec Hhead2 Hst2 Het2.
  assert (files w !! etag_path E name ≠ Some new_etag) as Hold'
    by (rewrite Hold; congruence).
  destruct (retrieve_model_download E name w r new_etag body)
    as (_ & _ & Hfile & Hrec & _); try done.
  destruct (retrieve_model_download_state E name w r new_etag body)
    as (Hdir1 & _); try done.
  rewrite Hdec in Hrec, Hfile. cbn [fst snd] in Hrec, Hfile.
  rewrite (retrieve_model_unchanged E name _ r2 old_etag); try done.
  by rewrite <- Hold.
Qed.

Lemma stale_record_hides_clobbered_artifact_witness :
  (retrieve_model Demo.env "component"
     (with_remote {[ model_url "component" := MkResponse 200 (Some "v1") ]} ∅
        (retrieve_model Demo.env "component" Demo.world_v2_cut).2)).1
  = Ok (model_file_path Demo.env "component")
  ∧ files (retrieve_model Demo.env "component"
             (with_remote {[ model_url "component" := MkResponse 200 (Some "v1") ]} ∅
                (retrieve_model Demo.env "component" Demo.world_v2_cut).2)).2
      !! model_file_path Demo.env "component" = Some "pic"
  ∧ trace (retrieve_model Demo.env "component"
             (with_remote {[ model_url "component" := MkResponse 200 (Some "v1") ]} ∅
                (retrieve_model Demo.env "component" Demo.world_v2_cut).2)).2 =
      trace (retrieve_model Demo.env "component" Demo.world_v2_cut).2
      ++ [EvMakedirs (MODELS_DIR Demo.env); EvHead (model_url "component")].
Proof.
  apply (stale_record_hides_clobbered_artifact Demo.env "component"
           Demo.world_v2_cut (MkResponse 200 (Some "v2")) "v2" "v1" "xz~pic" "pic"
           {[ model_url "component" := MkResponse 200 (Some "v1") ]} ∅
           (MkResponse 200 (Some "v1"))).
  - vm_compute; reflexivity.
  - vm_compute; reflexivity.
  - simpl; lia.
  - reflexivity.
  - vm_compute; reflexivity.
  - discriminate.
  - vm_compute; reflexivity.
  - reflexivity.
  - vm_compute; reflexivity.
  - simpl; lia.
  - reflexivity.
Defined.

(** X7. [retrieve_model] never looks at the artifact itself.  With a
    current fingerprint record and no artifact on disk, it returns the
    artifact path without downloading, and [load_model] on the world it
    leaves raises [IOError] on that path. *)
Theorem record_without_artifact E name w r new_etag cls :
  files w !! MODELS_DIR E = None →
  remote_head w !! model_url name = Some r →
  ¬ (400 ≤ status_code r < 600) →
  header_ETag r = Some new_etag →
  files w !! etag_path E name = Some new_etag →
  files w !! model_file_path E name = None →
  dict_getitem MODELS name = Ok cls →
  (retrieve_model E name w).1 = Ok (model_file_path E name)
  ∧ trace (retrieve_model E name w).2 =
      trace w ++ [EvMakedirs (MODELS_DIR E); EvHead (model_url name)]
  ∧ (load_model E name (retrieve_model E name w).2).1
    = Raise (IOError (model_file_path E name)).
Proof.
  intros Hdir Hhead Hst Het Hold Hfile Hcls.
  rewrite (retrieve_model_unchanged E name w r new_etag) by done.
  cbn [fst snd]. rewrite load_model_run, Hcls. world_simpl.
  by rewrite Hfile.
Qed.

Lemma record_without_artifact_witness :
  (retrieve_model Demo.env "component" Scenario.world_record_only).1
  = Ok (model_file_path Demo.env "component")
  ∧ trace (retrieve_model Demo.env "component" Scenario.world_record_only).2 =
      trace Scenario.world_record_only
      ++ [EvMakedirs (MODELS_DIR Demo.env); EvHead (model_url "component")]
  ∧ (load_model Demo.env "component"
       (retrieve_model Demo.env "component" Scenario.world_record_only).2).1
    = Raise (IOError (model_file_path Demo.env "component")).
Proof.
  apply (record_without_artifact Demo.env "component" Scenario.world_record_only
           (MkResponse 200 (Some "v1")) "v1" ComponentModel).
  - vm_compute; reflexivity.
  - vm_compute; reflexivity.
  - simpl; lia.
  - reflexivity.
  - vm_compute; reflexivity.
  - vm_compute; reflexivity.
  - vm_compute; reflexivity.
Defined.

(** X8. [retrieve_model] and [load_model] agree on the artifact path:
    after a call of [retrieve_model] that downloaded an archive decoding
    to its end, [load_model] for the same registered name deserialises
    exactly the decoded bytes. *)
Theorem load_model_after_retrieve_model
    E name w r new_etag body decoded cls :
  files w !! MODELS_DIR E = None →
  remote_head w !! model_url name = Some r →
  ¬ (400 ≤ status_code r < 600) →
  header_ETag r = Some new_etag →
  files w !! etag_path E name ≠ Some new_etag →
  remote_get w !! model_url name = Some body →
  lzma_decode E body = (decoded, true) →
  dict_getitem MODELS name = Ok cls →
  (load_model E name (retrieve_model E name w).2).1 =
    match model_load E cls decoded with
    | Some model => Ok model
    | None => Raise UnpicklingError
    end.
Proof.
  intros Hdir Hhead Hst Het Hold Hget Hdec Hcls.
  destruct (retrieve_model_download E name w r new_etag body)
    as (_ & _ & Hfile & _); try done.
  rewrite Hdec in Hfile. cbn [fst] in Hfile.
  rewrite load_model_run, Hcls. cbn [fst]. by rewrite Hfile.
Qed.

Lemma load_model_after_retrieve_model_witness :
  (load_model Demo.env "component"
     (retrieve_model Demo.env "component" Scenario.world_v2_with_bug).2).1 =
    match model_load Demo.env ComponentModel "pickle" with
    | Some model => Ok model
    | None => Raise UnpicklingError
    end.
Proof.
  apply (load_model_after_retrieve_model Demo.env "component"
           Scenario.world_v2_with_bug (MkResponse 200 (Some "v2")) "v2" "xz:pickle").
  - vm_compute; reflexivity.
  - vm_compute; reflexivity.
  - simpl; lia.
  - reflexivity.
  - vm_compute; discriminate.
  - vm_compute; reflexivity.
  - reflexivity.
  - vm_compute; reflexivity.
Defined.

(** X9. The two entry points in sequence: after a call of
    [retrieve_model] that downloaded an archive decoding to its end,
    [classify_bug] for the same name, on at least one record, with a
    model that deserialises from the decoded bytes and answers a
    well-shaped array, returns [OK] and publishes the result shaped from
    the first row. *)
Theorem classify_bug_after_retrieve_model
    E name bug_id tok ttl w r new_etag body decoded cls model bugs probs :
  files w !! MODELS_DIR E = None →
  remote_head w !! model_url name = Some r →
  ¬ (400 ≤ status_code r < 600) →
  header_ETag r = Some new_etag →
  files w !! etag_path E name ≠ Some new_etag →
  remote_get w !! model_url name = Some body →
  lzma_decode E body = (decoded, true) →
  dict_getitem MODELS name = Ok cls →
  model_load E cls decoded = Some model →
  0 < ttl →
  bugzilla_bugs w (Some tok) bug_id = Ok bugs →
  bugs ≠ [] →
  classify_proba model (bugs.*2) = Ok probs →
  length probs = length bugs →
  well_shaped (le_classes model) probs →
  (classify_bug E name bug_id tok ttl (retrieve_model E name w).2).1 = Ok "OK"
  ∧ ∃ row0 i0 s0,
      head probs = Some row0
      ∧ argmax row0 = Ok i0
      ∧ le_classes model !! i0 = Some s0
      ∧ redis (classify_bug E name bug_id tok ttl (retrieve_model E name w).2).2
          !! redis_key_of name bug_id
        = Some (json_dumps (result_data row0 i0 s0), Some ttl).
Proof.
  intros Hdir Hhead Hst Het Hold Hget Hdec Hcls Hload Httl Hbugs Hne
    Hprobs Hrows Hshape.
  destruct (retrieve_model_download E name w r new_etag body)
    as (_ & _ & Hfile & _); try done.
  destruct (retrieve_model_download_state E name w r new_etag body)
    as (_ & Hbz & _); try done.
  rewrite Hdec in Hfile. cbn [fst] in Hfile.
  destruct (classify_bug_publishes E name bug_id tok ttl
              (retrieve_model E name w).2 bugs model probs)
    as (row0 & i0 & s0 & Hhd & _ & Hi0 & _ & Hs0 & Hres & Hredis & _);
    try done.
  - by rewrite Hbz.
  - exists cls, decoded. rewrite length_fmap. done.
  - split; [done |]. exists row0, i0, s0. done.
Qed.

Lemma classify_bug_after_retrieve_model_witness :
  (classify_bug Demo.env "component" 67 "tok" 500
     (retrieve_model Demo.env "component" Scenario.world_v2_with_bug).2).1 = Ok "OK"
  ∧ ∃ row0 i0 s0,
      head [[0.1; 0.7; 0.2]%float] = Some row0
      ∧ argmax row0 = Ok i0
      ∧ le_classes Demo.predictor !! i0 = Some s0
      ∧ redis (classify_bug Demo.env "component" 67 "tok" 500
                 (retrieve_model Demo.env "component" Scenario.world_v2_with_bug).2).2
          !! redis_key_of "component" 67
        = Some (json_dumps (result_data row0 i0 s0), Some 500).
Proof.
  apply (classify_bug_after_retrieve_model Demo.env "component" 67 "tok" 500
           Scenario.world_v2_with_bug (MkResponse 200 (Some "v2")) "v2"
           "xz:pickle" "pickle" ComponentModel Demo.predictor [(67, Demo.bug)]).
  - vm_compute; reflexivity.
  - vm_compute; reflexivity.
  - simpl; lia.
  - reflexivity.
  - vm_compute; discriminate.
  - vm_compute; reflexivity.
  - reflexivity.
  - vm_compute; reflexivity.
  - reflexivity.
  - lia.
  - vm_compute; reflexivity.
  - discriminate.
  - reflexivity.
  - reflexivity.
  - apply List.Forall_cons; [| apply List.Forall_nil].
    split; [discriminate | reflexivity].
Defined.

(** X10. [classify_bug] does not fetch the artifact on its own: on at
    least one record, with a registered name and no artifact on disk, it
    raises [IOError] on the artifact path, after the record fetch and the
    attempt to load; nothing is published. *)
Theorem classify_bug_without_artifact E model_name bug_id tok ttl w bugs cls :
  bugzilla_bugs w (Some tok) bug_id = Ok bugs →
  bugs ≠ [] →
  dict_getitem MODELS model_name = Ok cls →
  files w !! model_file_path E model_name = None →
  classify_bug E model_name bug_id tok ttl w =
    (Raise (IOError (model_file_path E model_name)),
     with_token (Some tok)
       (with_trace
          (trace w ++ [EvSetToken tok; EvFetchBugs bug_id;
                       EvLoadModel cls (model_file_path E model_name)]) w)).
Proof.
  intros Hbugs Hne Hcls Hfile. destruct bugs as [| b bugs]; [done |].
  rewrite classify_bug_fetch, Hbugs. cbv zeta.
  unfold bind at 1. rewrite load_model_run, Hcls. world_simpl.
  rewrite Hfile. f_equal. world_eq.
Qed.

Lemma classify_bug_without_artifact_witness :
  classify_bug Demo.env "component" 67 "tok" 500 Demo.world_with_bug =
    (Raise (IOError (model_file_path Demo.env "component")),
     with_token (Some "tok")
       (with_trace
          (trace Demo.world_with_bug
           ++ [EvSetToken "tok"; EvFetchBugs 67;
               EvLoadModel ComponentModel (model_file_path Demo.env "component")])
          Demo.world_with_bug)).
Proof.
  apply (classify_bug_without_artifact Demo.env "component" 67 "tok" 500
           Demo.world_with_bug [(67, Demo.bug)] ComponentModel).
  - vm_compute; reflexivity.
  - discriminate.
  - vm_compute; reflexivity.
  - vm_compute; reflexivity.
Defined.

(** ** What the functions leave alone *)

(** A view [proj] of the world is kept by a computation when it is the
    same after the computation as before, whether it returns or raises. *)
Section Keeps.
Context {T : Type} (proj : World → T).

Definition keeps {A} (m : M A) : Prop := ∀ w, proj (m w).2 = proj w.

Definition ignores_trace : Prop := ∀ t w, proj (with_trace t w) = proj w.
Definition ignores_files : Prop := ∀ f w, proj (with_files f w) = proj w.
Definition ignores_token : Prop := ∀ t w, proj (with_token t w) = proj w.

Lemma keeps_ret {A} (a : A) : keeps (ret a).
Proof. by intros w. Qed.

Lemma keeps_raise {A} (e : exn) : keeps (@raise A e).
Proof. by intros w. Qed.

Lemma keeps_lift {A} (r : Result A) : keeps (lift r).
Proof. by intros w. Qed.

Lemma keeps_bind {A B} (m : M A) (k : A → M B) :
  keeps m → (∀ a, keeps (k a)) → keeps (bind m k).
Proof.
  intros Hm Hk w. unfold bind. specialize (Hm w).
  destruct (m w) as [[a | e] w']; cbn [snd] in *; [| done].
  by rewrite Hk.
Qed.

Lemma keeps_try {A} (m handler : M A) :
  keeps m → keeps handler → keeps (try_except_IOError m handler).
Proof.
  intros Hm Hh w. unfold try_except_IOError. specialize (Hm w).
  destruct (m w) as [[a | e] w']; cbn [snd] in *; [done |].
  destruct e; try done. by rewrite Hh.
Qed.

Lemma keeps_emit e : ignores_trace → keeps (emit e).
Proof. intros Htr w. apply Htr. Qed.

Lemma keeps_pure_step {A} (f : World → Result A) : keeps (fun w => (f w, w)).
Proof. by intros w. Qed.

Lemma keeps_read_file path : keeps (read_file path).
Proof. intros w. unfold read_file. by destruct (files w !! path). Qed.

Lemma keeps_put_file path content : ignores_files → keeps (put_file path content).
Proof. intros Hf w. apply Hf. Qed.

Lemma keeps_os_makedirs path : ignores_trace → keeps (os_makedirs path).
Proof.
  intros Htr. apply keeps_bind; [by apply keeps_emit |].
  intros _ w. by destruct (files w !! path).
Qed.

Lemma keeps_requests_head url : ignores_trace → keeps (requests_head url).
Proof.
  intros Htr. apply keeps_bind; [by apply keeps_emit |].
  intros _ w. by destruct (remote_head w !! url).
Qed.

Lemma keeps_raise_for_status r : keeps (raise_for_status r).
Proof. intros w. unfold raise_for_status. by case_bool_decide. Qed.

Lemma keeps_headers_ETag r : keeps (headers_ETag r).
Proof. intros w. unfold headers_ETag. by destruct (header_ETag r). Qed.

Lemma keeps_urlretrieve url dest :
  ignores_trace → (∀ c, keeps (put_file dest c)) → keeps (urlretrieve url dest).
Proof.
  intros Htr Hput. apply keeps_bind; [by apply keeps_emit |].
  intros _ w. destruct (remote_get w !! url) as [body |]; [apply Hput |].
  destruct (remote_broken w !! url) as [received |]; [| done].
  apply (Hput received).
Qed.

Lemma keeps_lzma_copy E src dest :
  ignores_trace → (∀ c, keeps (put_file dest c)) → keeps (lzma_copy E src dest).
Proof.
  intros Htr Hput. unfold lzma_copy.
  apply keeps_bind; [by apply keeps_emit | intros _].
  apply keeps_bind; [apply keeps_read_file | intros compressed].
  apply keeps_bind; [apply Hput | intros _].
  destruct (lzma_decode E compressed) as [decoded complete].
  apply keeps_bind; [apply Hput | intros _].
  destruct complete; [apply keeps_ret | apply keeps_raise].
Qed.

Lemma keeps_write_file path content :
  ignores_trace → (∀ c, keeps (put_file path c)) → keeps (write_file path content).
Proof.
  intros Htr Hput. apply keeps_bind; [by apply keeps_emit | intros _; apply Hput].
Qed.

(** [retrieve_model] keeps every view that the log and the writes of its
    own three files do not change. *)
Lemma keeps_retrieve_model E name :
  ignores_trace →
  (∀ c, keeps (put_file (xz_path E name) c)) →
  (∀ c, keeps (put_file (model_file_path E name) c)) →
  (∀ c, keeps (put_file (etag_path E name) c)) →
  keeps (retrieve_model E name).
Proof.
  intros Htr Hxz Hfile Hetag. unfold retrieve_model. cbv zeta.
  fold (model_file_path E name). fold (etag_path E name). fold (xz_path E name).
  apply keeps_bind; [by apply keeps_os_makedirs | intros _].
  apply keeps_bind; [by apply keeps_requests_head | intros r].
  apply keeps_bind; [apply keeps_raise_for_status | intros _].
  apply keeps_bind; [apply keeps_headers_ETag | intros new_etag].
  apply keeps_bind.
  { apply keeps_try; [| apply keeps_ret].
    apply keeps_bind; [apply keeps_read_file | intros c; apply keeps_ret]. }
  intros old_etag. apply keeps_bind; [| intros _; apply keeps_ret].
  case_bool_decide; [| apply keeps_ret].
  apply keeps_bind; [by apply keeps_urlretrieve | intros _].
  apply keeps_bind; [by apply keeps_lzma_copy | intros _].
  by apply keeps_write_file.
Qed.

Lemma keeps_load_model E name : ignores_trace → keeps (load_model E name).
Proof.
  intros Htr. unfold load_model. cbv zeta.
  apply keeps_bind; [apply keeps_lift | intros cls].
  unfold Model_load.
  apply keeps_bind; [by apply keeps_emit | intros _].
  apply keeps_bind; [apply keeps_read_file | intros content].
  destruct (model_load E cls content); [apply keeps_ret | apply keeps_raise].
Qed.

Lemma keeps_Model_classify model bugs :
  ignores_trace → keeps (Model_classify model bugs).
Proof.
  intros Htr. apply keeps_bind; [by apply keeps_emit | intros _; apply keeps_lift].
Qed.

Lemma keeps_bugzilla_download bug_id :
  ignores_trace → keeps (bugzilla_download bug_id).
Proof.
  intros Htr. apply keeps_bind; [by apply keeps_emit | intros _].
  apply (keeps_pure_step (fun w => bugzilla_bugs w (bugzilla_token w) bug_id)).
Qed.

Lemma keeps_bugzilla_set_token token :
  ignores_trace → ignores_token → keeps (bugzilla_set_token token).
Proof.
  intros Htr Htok. apply keeps_bind; [by apply keeps_emit | intros _].
  intros w. apply Htok.
Qed.

Definition ignores_redis : Prop := ∀ r w, proj (with_redis r w) = proj w.

Lemma keeps_redis_set key value :
  ignores_trace → ignores_redis → keeps (redis_set key value).
Proof.
  intros Htr Hrd. apply keeps_bind; [by apply keeps_emit | intros _].
  intros w. apply Hrd.
Qed.

Lemma keeps_redis_expire key seconds :
  ignores_trace → ignores_redis → keeps (redis_expire key seconds).
Proof.
  intros Htr Hrd. apply keeps_bind; [by apply keeps_emit | intros _].
  intros w. destruct (redis w !! key) as [[value ttl] |]; [| done].
  case_bool_decide; apply Hrd.
Qed.

(** On every view that the log and the two store operations on its own
    key do not change, [classify_bug] acts as the setting of the token. *)
Lemma classify_bug_view E model_name bug_id tok ttl w :
  ignores_trace →
  (∀ v, keeps (redis_set (redis_key_of model_name bug_id) v)) →
  keeps (redis_expire (redis_key_of model_name bug_id) ttl) →
  proj (classify_bug E model_name bug_id tok ttl w).2
  = proj (with_token (Some tok) w).
Proof.
  intros Htr Hset Hexpire. rewrite classify_bug_fetch. cbv zeta.
  assert (∀ t, proj (with_token (Some tok) (with_trace t w))
               = proj (with_token (Some tok) w)) as Hstart.
  { intros t. rewrite <- (Htr t (with_token (Some tok) w)). f_equal. }
  assert (∀ v, keeps (redis_set (redis_key_of model_name bug_id) v ;;;
                      redis_expire (redis_key_of model_name bug_id) ttl ;;;
                      ret "OK")) as Hpublish.
  { intros v. apply keeps_bind; [apply Hset | intros _].
    apply keeps_bind; [done | intros _; apply keeps_ret]. }
  destruct (bugzilla_bugs w (Some tok) bug_id) as [[| b bugs] | e].
  - rewrite Hpublish. apply Hstart.
  - rewrite <- (Hstart (trace w ++ [EvSetToken tok; EvFetchBugs bug_id])).
    generalize (with_token (Some tok)
                  (with_trace (trace w ++ [EvSetToken tok; EvFetchBugs bug_id]) w)).
    apply keeps_bind; [by apply keeps_load_model | intros model].
    apply keeps_bind; [by apply keeps_Model_classify | intros probs].
    do 5 (apply keeps_bind; [apply keeps_lift | intros ?]).
    apply Hpublish.
  - apply Hstart.
Qed.

End Keeps.

(** X11. Whatever its outcome, [retrieve_model] leaves the result store,
    the Bugzilla token and record source, and the remote index as they
    are. *)
Theorem retrieve_model_keeps_the_rest E name w :
  redis (retrieve_model E name w).2 = redis w
  ∧ bugzilla_token (retrieve_model E name w).2 = bugzilla_token w
  ∧ bugzilla_bugs (retrieve_model E name w).2 = bugzilla_bugs w
  ∧ remote_head (retrieve_model E name w).2 = remote_head w
  ∧ remote_get (retrieve_model E name w).2 = remote_get w
  ∧ remote_broken (retrieve_model E name w).2 = remote_broken w.
Proof.
  repeat split.
  - by apply (keeps_retrieve_model redis E name).
  - by apply (keeps_retrieve_model bugzilla_token E name).
  - by apply (keeps_retrieve_model bugzilla_bugs E name).
  - by apply (keeps_retrieve_model remote_head E name).
  - by apply (keeps_retrieve_model remote_get E name).
  - by apply (keeps_retrieve_model remote_broken E name).
Qed.

Lemma retrieve_model_other_files E name w path :
  path ≠ model_file_path E name →
  path ≠ xz_path E name →
  path ≠ etag_path E name →
  files (retrieve_model E name w).2 !! path = files w !! path.
Proof.
  intros Hfile Hxz Hetag.
  apply (keeps_retrieve_model (fun w => files w !! path) E name);
    first done; intros c w'; cbn [put_file snd]; world_simpl;
    by rewrite lookup_insert_ne.
Qed.

(** X12. Whatever its outcome, [retrieve_model] changes no file other
    than the artifact, the staging file and the fingerprint record of the
    name it is called with. *)
Theorem retrieve_model_keeps_other_files E name w path :
  path ≠ model_file_path E name →
  path ≠ xz_path E name →
  path ≠ etag_path E name →
  files (retrieve_model E name w).2 !! path = files w !! path.
Proof. apply retrieve_model_other_files. Qed.

Lemma retrieve_model_keeps_other_files_witness :
  files (retrieve_model Demo.env "component" Demo.world_v2).2
    !! "/srv/http_service/models/regressionmodel"
  = files Demo.world_v2 !! "/srv/http_service/models/regressionmodel".
Proof.
  apply (retrieve_model_keeps_other_files Demo.env "component" Demo.world_v2).
  - vm_compute; discriminate.
  - vm_compute; discriminate.
  - vm_compute; discriminate.
Defined.

Lemma classify_bug_frame E model_name bug_id tok ttl w :
  files (classify_bug E model_name bug_id tok ttl w).2 = files w
  ∧ remote_head (classify_bug E model_name bug_id tok ttl w).2 = remote_head w
  ∧ remote_get (classify_bug E model_name bug_id tok ttl w).2 = remote_get w
  ∧ bugzilla_bugs (classify_bug E model_name bug_id tok ttl w).2 = bugzilla_bugs w.
Proof.
  repeat split.
  - rewrite (classify_bug_view files);
      [done | done | intros v; by apply keeps_redis_set
      | by apply keeps_redis_expire].
  - rewrite (classify_bug_view remote_head);
      [done | done | intros v; by apply keeps_redis_set
      | by apply keeps_redis_expire].
  - rewrite (classify_bug_view remote_get);
      [done | done | intros v; by apply keeps_redis_set
      | by apply keeps_redis_expire].
  - rewrite (classify_bug_view bugzilla_bugs);
      [done | done | intros v; by apply keeps_redis_set
      | by apply keeps_redis_expire].
Qed.

(** X13. Whatever its outcome, [classify_bug] leaves the local files, the
    remote index and the record source as they are. *)
Theorem classify_bug_keeps_files_and_remote E model_name bug_id tok ttl w :
  files (classify_bug E model_name bug_id tok ttl w).2 = files w
  ∧ remote_head (classify_bug E model_name bug_id tok ttl w).2 = remote_head w
  ∧ remote_get (classify_bug E model_name bug_id tok ttl w).2 = remote_get w
  ∧ bugzilla_bugs (classify_bug E model_name bug_id tok ttl w).2 = bugzilla_bugs w.
Proof. apply classify_bug_frame. Qed.

(** X14. Whatever its outcome, and also when it raises, [classify_bug]
    leaves the Bugzilla token of the process set to the token it was
    called with. *)
Theorem classify_bug_leaves_token_set E model_name bug_id tok ttl w :
  bugzilla_token (classify_bug E model_name bug_id tok ttl w).2 = Some tok.
Proof.
  rewrite (classify_bug_view bugzilla_token);
    [done | done | intros v; by apply keeps_redis_set
    | by apply keeps_redis_expire].
Qed.

(** X15. Whatever its outcome, [classify_bug] changes no entry of the
    result store other than the one under its own key. *)
Theorem classify_bug_keeps_other_keys E model_name bug_id tok ttl w key :
  key ≠ redis_key_of model_name bug_id →
  redis (classify_bug E model_name bug_id tok ttl w).2 !! key = redis w !! key.
Proof.
  intros Hkey.
  rewrite (classify_bug_view (fun w => redis w !! key)).
  - done.
  - done.
  - intros v w'. cbn [redis_set bind emit fst snd]. world_simpl.
    by rewrite lookup_insert_ne.
  - intros w'. unfold redis_expire. rewrite bind_emit. world_simpl.
    destruct (redis w' !! redis_key_of model_name bug_id) as [[value t] |];
      [| done].
    case_bool_decide; cbn [snd]; world_simpl;
      by rewrite ?lookup_delete_ne, ?lookup_insert_ne.
Qed.

Lemma classify_bug_keeps_other_keys_witness :
  redis (classify_bug Demo.env "component" 67 "tok" 500 Demo.world_ready).2
    !! "result_component_68"
  = redis Demo.world_ready !! "result_component_68".
Proof.
  apply (classify_bug_keeps_other_keys Demo.env "component" 67 "tok" 500
           Demo.world_ready).
  vm_compute; discriminate.
Defined.

(** ** [load_model] *)

(** X16. [load_model] returns a model exactly when the name is
    registered, the artifact file of that name exists, and its content
    deserialises to that model. *)
Theorem load_model_returns_iff E name w model :
  (load_model E name w).1 = Ok model
  ↔ ∃ cls content,
      dict_getitem MODELS name = Ok cls
      ∧ files w !! model_file_path E name = Some content
      ∧ model_load E cls content = Some model.
Proof.
  rewrite load_model_run. split.
  - destruct (dict_getitem MODELS name) as [cls | e]; [| done]. cbn [fst].
    destruct (files w !! model_file_path E name) as [content |]; [| done].
    destruct (model_load E cls content) as [m |] eqn:Hload; [| done].
    intros [= ->]. eauto.
  - intros (cls & content & -> & Hfile & Hload). cbn [fst].
    by rewrite Hfile, Hload.
Qed.

(** X17. For a name that is not registered, [load_model] raises
    [KeyError] on the registry lookup before anything else: no file is
    opened, no operation is issued, the world is as it was. *)
Theorem load_model_unregistered E name w :
  name ∉ MODELS_NAMES →
  load_model E name w = (Raise (KeyError name), w).
Proof.
  intros Hnot. rewrite load_model_run.
  by rewrite (dict_getitem_missing MODELS name Hnot).
Qed.

Lemma load_model_unregistered_witness :
  load_model Demo.env "nosuch" Demo.world_ready
  = (Raise (KeyError "nosuch"), Demo.world_ready).
Proof.
  apply (load_model_unregistered Demo.env "nosuch" Demo.world_ready).
  apply (bool_decide_eq_false_1 _). vm_compute; reflexivity.
Defined.

(** ** [classify_bug] again *)

(** X18. When the record source raises, [classify_bug] raises the same
    exception right after the fetch: unlike an empty answer, a failing
    record source publishes nothing, not even the unavailable entry. *)
Theorem classify_bug_record_source_raises E model_name bug_id tok ttl w e :
  bugzilla_bugs w (Some tok) bug_id = Raise e →
  classify_bug E model_name bug_id tok ttl w =
    (Raise e,
     with_token (Some tok)
       (with_trace (trace w ++ [EvSetToken tok; EvFetchBugs bug_id]) w)).
Proof. intros Hbugs. by rewrite classify_bug_fetch, Hbugs. Qed.

Lemma classify_bug_record_source_raises_witness :
  classify_bug Demo.env "component" 67 "tok" 500 Scenario.world_bugzilla_down =
    (Raise BugzillaError,
     with_token (Some "tok")
       (with_trace
          (trace Scenario.world_bugzilla_down ++ [EvSetToken "tok"; EvFetchBugs 67])
          Scenario.world_bugzilla_down)).
Proof.
  apply (classify_bug_record_source_raises Demo.env "component" 67 "tok" 500
           Scenario.world_bugzilla_down BugzillaError).
  reflexivity.
Defined.

(** The result of [classify_bug] and what it does to the store depend on
    the world only through the local files and the record source. *)
Lemma classify_bug_same_inputs E model_name bug_id tok ttl w w' :
  files w' = files w →
  bugzilla_bugs w' = bugzilla_bugs w →
  (classify_bug E model_name bug_id tok ttl w').1
  = (classify_bug E model_name bug_id tok ttl w).1
  ∧ ((redis (classify_bug E model_name bug_id tok ttl w).2 = redis w
      ∧ redis (classify_bug E model_name bug_id tok ttl w').2 = redis w')
     ∨ ∃ update : gmap string (JsonText * option Z) → gmap string (JsonText * option Z),
         (∀ rd, update (update rd) = update rd)
         ∧ redis (classify_bug E model_name bug_id tok ttl w).2 = update (redis w)
         ∧ redis (classify_bug E model_name bug_id tok ttl w').2 = update (redis w')).
Proof.
  intros Hfiles Hbz.
  assert (∀ value,
            let update := fun rd : gmap string (JsonText * option Z) =>
              if bool_decide (ttl ≤ 0)
              then delete (redis_key_of model_name bug_id) rd
              else <[redis_key_of model_name bug_id := (value, Some ttl)]> rd in
            ∀ rd, update (update rd) = update rd) as Hidem.
  { intros value update rd. subst update. cbv beta.
    case_bool_decide; [apply delete_delete_eq | apply insert_insert_eq]. }
  destruct (classify_bug E model_name bug_id tok ttl w) as [res w1] eqn:Hrun.
  destruct (classify_bug E model_name bug_id tok ttl w') as [res' w1'] eqn:Hrun'.
  cbn [fst snd].
  rewrite classify_bug_fetch in Hrun, Hrun'. rewrite Hbz in Hrun'.
  cbv zeta in Hrun, Hrun'.
  destruct (bugzilla_bugs w (Some tok) bug_id) as [[| b bugs] | e].
  - rewrite publish_run in Hrun, Hrun'.
    injection Hrun as Hr Hw; injection Hrun' as Hr' Hw'. subst.
    split; [done |]. right. eexists. split; [apply (Hidem unavailable) |].
    by world_simpl.
  - unfold bind at 1 in Hrun. unfold bind at 1 in Hrun'.
    rewrite load_model_run in Hrun, Hrun'.
    world_simpl_in Hrun. world_simpl_in Hrun'. rewrite Hfiles in Hrun'.
    destruct (dict_getitem MODELS model_name) as [cls | e].
    2: { injection Hrun as Hr Hw; injection Hrun' as Hr' Hw'. subst.
         split; [done |]. by left. }
    destruct (match files w !! model_file_path E model_name with
              | Some content =>
                  match model_load E cls content with
                  | Some m => Ok m
                  | None => Raise UnpicklingError
                  end
              | None => Raise (IOError (model_file_path E model_name))
              end) as [model | e].
    2: { injection Hrun as Hr Hw; injection Hrun' as Hr' Hw'. subst.
         split; [done |]. by left. }
    unfold bind at 1 in Hrun. unfold bind at 1 in Hrun'.
    rewrite Model_classify_run in Hrun, Hrun'.
    destruct (classify_proba model (b :: bugs).*2) as [probs | e].
    2: { injection Hrun as Hr Hw; injection Hrun' as Hr' Hw'. subst.
         split; [done |]. by left. }
    repeat (rewrite bind_lift in Hrun; rewrite bind_lift in Hrun';
            match type of Hrun with
            | context [match ?r with Ok _ => _ | Raise _ => _ end] =>
                destruct r;
                [| injection Hrun as Hr Hw; injection Hrun' as Hr' Hw'; subst;
                   split; [done |]; by left ]
            end).
    rewrite publish_run in Hrun, Hrun'.
    injection Hrun as Hr Hw; injection Hrun' as Hr' Hw'. subst.
    split; [done |]. right. eexists. split; [apply Hidem |]. by world_simpl.
  - injection Hrun as Hr Hw; injection Hrun' as Hr' Hw'. subst.
    split; [done |]. by left.
Qed.

(** X19. Running the same classification again, with the record source
    and the files unchanged, gives the same result and leaves the store
    exactly as the first run left it: the entry is overwritten with the
    same value and expiry, and a run that raised raises again without
    writing. *)
Theorem classify_bug_twice E model_name bug_id tok ttl w :
  (classify_bug E model_name bug_id tok ttl
     (classify_bug E model_name bug_id tok ttl w).2).1
  = (classify_bug E model_name bug_id tok ttl w).1
  ∧ redis (classify_bug E model_name bug_id tok ttl
             (classify_bug E model_name bug_id tok ttl w).2).2
    = redis (classify_bug E model_name bug_id tok ttl w).2.
Proof.
  destruct (classify_bug_frame E model_name bug_id tok ttl w)
    as (Hfiles & _ & _ & Hbz).
  destruct (classify_bug_same_inputs E model_name bug_id tok ttl w
              (classify_bug E model_name bug_id tok ttl w).2 Hfiles Hbz)
    as [Hres [[Hrd Hrd'] | (update & Hidem & Hrd & Hrd')]].
  - done.
  - split; [done |]. by rewrite Hrd', Hrd, Hidem.
Qed.

(** ** Keys and paths of different requests *)

Fixpoint has_underscore (s : string) : bool :=
  match s with
  | EmptyString => false
  | String c s' => bool_decide (c = "_"%char) || has_underscore s'
  end.

Lemma pretty_N_go_no_underscore x s :
  has_underscore s = false → has_underscore (pretty_N_go x s) = false.
Proof.
  revert s. induction (N.lt_wf_0 x) as [x _ IH]; intros s Hs.
  assert (x = 0 ∨ 0 < x)%N as [-> | Hpos] by lia.
  - by rewrite pretty_N_go_0.
  - rewrite pretty_N_go_step by done. apply IH.
    { by apply N.div_lt. }
    simpl. rewrite Hs. unfold pretty_N_char. by repeat case_match.
Qed.

Lemma pretty_Z_no_underscore (z : Z) : has_underscore (pretty z) = false.
Proof.
  assert (∀ p : positive, has_underscore (pretty p) = false) as Hpos.
  { intros p. unfold pretty, pretty_positive, pretty, pretty_N.
    case_decide; [done |]. by apply pretty_N_go_no_underscore. }
  destruct z as [| p | p]; [done | apply Hpos |].
  unfold pretty, pretty_Z. simpl. apply Hpos.
Qed.

Lemma has_underscore_app a b : has_underscore (a +:+ String "_" b) = true.
Proof.
  induction a as [| c a IH]; [done |]. simpl. simpl in IH. rewrite IH.
  by destruct (bool_decide (c = "_"%char)).
Qed.

Lemma split_at_last_underscore m1 m2 p1 p2 :
  has_underscore p1 = false →
  has_underscore p2 = false →
  m1 +:+ String "_" p1 = m2 +:+ String "_" p2 →
  m1 = m2 ∧ p1 = p2.
Proof.
  intros Hp1 Hp2. revert m2.
  induction m1 as [| c m1 IH]; intros [| c' m2] Heq; simpl in Heq.
  - by simplify_eq.
  - injection Heq as _ Heq. rewrite Heq in Hp1.
    pose proof (has_underscore_app m2 p2). simpl in *. congruence.
  - injection Heq as _ Heq. rewrite <- Heq in Hp2.
    pose proof (has_underscore_app m1 p1). simpl in *. congruence.
  - injection Heq as -> Heq. destruct (IH m2 Heq) as [-> ->]. done.
Qed.

(** X20. The store key determines the request: two calls with different
    model names or different bug identifiers never write under the same
    key, whatever the characters of the model names. *)
Theorem redis_key_of_distinct model1 bug1 model2 bug2 :
  (model1, bug1) ≠ (model2, bug2) →
  redis_key_of model1 bug1 ≠ redis_key_of model2 bug2.
Proof.
  intros Hne Heq. apply Hne. unfold redis_key_of in Heq.
  apply (inj (String.app "result_")) in Heq.
  change ("_" +:+ pretty bug1) with (String "_" (pretty bug1)) in Heq.
  change ("_" +:+ pretty bug2) with (String "_" (pretty bug2)) in Heq.
  apply split_at_last_underscore in Heq as [-> Hp];
    [| apply pretty_Z_no_underscore ..].
  by apply (inj pretty) in Hp as ->.
Qed.

Lemma redis_key_of_distinct_witness :
  redis_key_of "component_1" 2 ≠ redis_key_of "component" 12.
Proof.
  apply (redis_key_of_distinct "component_1" 2 "component" 12).
  discriminate.
Defined.

(** Appending a fixed suffix is injective. *)
Lemma string_length_app (a b : string) :
  String.length (a +:+ b) = (String.length a + String.length b)%nat.
Proof. induction a as [| c a IH]; simpl; [done | by rewrite IH]. Qed.

Lemma app_inj_suffix (a b c : string) : a +:+ c = b +:+ c → a = b.
Proof.
  revert b. induction a as [| x a IH]; intros [| y b] Heq.
  - done.
  - apply (f_equal String.length) in Heq.
    rewrite !string_length_app in Heq. simpl in Heq. lia.
  - apply (f_equal String.length) in Heq.
    rewrite !string_length_app in Heq. simpl in Heq. lia.
  - change (String x (a +:+ c) = String y (b +:+ c)) in Heq.
    injection Heq as -> Heq. by rewrite (IH b Heq).
Qed.

Lemma os_path_join_inj a b1 b2 :
  String.prefix "/" b1 = false →
  String.prefix "/" b2 = false →
  os_path_join a b1 = os_path_join a b2 → b1 = b2.
Proof.
  intros H1 H2. unfold os_path_join. rewrite H1, H2.
  destruct (bool_decide (a = "") || ends_with_slash a); intros Heq.
  - by apply (inj (String.app a)) in Heq.
  - apply (inj (String.app a)) in Heq. by apply (inj (String.app "/")) in Heq.
Qed.

Lemma relative_model_file_name name :
  String.prefix "/" name = false → String.prefix "/" (name +:+ "model") = false.
Proof.
  destruct name as [| c name]; [done |].
  change (String c name +:+ "model") with (String c (name +:+ "model")).
  cbn [String.prefix]. destruct (ascii_dec "/" c); [| done].
  by destruct name.
Qed.

Lemma model_file_path_inj E name1 name2 :
  String.prefix "/" name1 = false →
  String.prefix "/" name2 = false →
  model_file_path E name1 = model_file_path E name2 → name1 = name2.
Proof.
  intros H1 H2 Heq. unfold model_file_path in Heq.
  apply os_path_join_inj in Heq; [| by apply relative_model_file_name ..].
  by apply app_inj_suffix in Heq.
Qed.

Lemma registered_name_is_relative name :
  name ∈ MODELS_NAMES → String.prefix "/" name = false.
Proof.
  unfold MODELS_NAMES, MODELS. cbn [fmap list_fmap fst].
  rewrite !elem_of_cons, elem_of_nil. by intros [-> | [-> | [-> | []]]].
Qed.

(** X21. The caches of the registered models do not interfere: for two
    different names of the registry, a call of [retrieve_model] for the
    first leaves the artifact, the staging file and the fingerprint record
    of the second exactly as they are, whatever the outcome of the call. *)
Theorem retrieve_model_keeps_other_models E name1 name2 w :
  name1 ∈ MODELS_NAMES →
  name2 ∈ MODELS_NAMES →
  name1 ≠ name2 →
  files (retrieve_model E name1 w).2 !! model_file_path E name2
  = files w !! model_file_path E name2
  ∧ files (retrieve_model E name1 w).2 !! xz_path E name2
    = files w !! xz_path E name2
  ∧ files (retrieve_model E name1 w).2 !! etag_path E name2
    = files w !! etag_path E name2.
Proof.
  intros H1%registered_name_is_relative H2%registered_name_is_relative Hne.
  assert (model_file_path E name2 ≠ model_file_path E name1) as Hfile.
  { intros Heq. apply Hne. symmetry. by apply (model_file_path_inj E). }
  assert (xz_path E name2 ≠ xz_path E name1) as Hxz.
  { unfold xz_path. intros Heq. by apply app_inj_suffix in Heq. }
  assert (etag_path E name2 ≠ etag_path E name1) as Hetag.
  { unfold etag_path. intros Heq. by apply app_inj_suffix in Heq. }
  repeat split; apply retrieve_model_other_files; try done; by_last_char.
Qed.

Lemma retrieve_model_keeps_other_models_witness :
  files (retrieve_model Demo.env "component" Demo.world_v2).2
    !! model_file_path Demo.env "regression"
  = files Demo.world_v2 !! model_file_path Demo.env "regression"
  ∧ files (retrieve_model Demo.env "component" Demo.world_v2).2
      !! xz_path Demo.env "regression"
    = files Demo.world_v2 !! xz_path Demo.env "regression"
  ∧ files (retrieve_model Demo.env "component" Demo.world_v2).2
      !! etag_path Demo.env "regression"
    = files Demo.world_v2 !! etag_path Demo.env "regression".
Proof.
  apply (retrieve_model_keeps_other_models Demo.env "component" "regression"
           Demo.world_v2).
  - apply (bool_decide_unpack _). vm_compute. exact I.
  - apply (bool_decide_unpack _). vm_compute. exact I.
  - discriminate.
Defined.
